(** * juv: keeping a notebook's inline dependency manifest in step with uv

    A shallow embedding of [src/juv/_add.py] and [src/juv/_init.py].

    The Python code is effectful: it reads and writes files, mutates the
    cell dictionaries of a notebook in place, and runs the external [uv]
    binary.  The embedding threads an explicit world (file system, object
    store of cells, log of subprocess invocations) through an
    exception-and-state monad.  The external binary, the inline-metadata
    predicate and the temporary-file namer are oracles: variables of the
    section that holds the program. *)

From Stdlib Require Import ZArith Lia Ascii DecimalString.
From stdpp Require Import base option list gmap strings.

Local Open Scope Z_scope.
Local Open Scope nat_scope.

(* stdpp blocks the unfolding of string concatenation; the proofs below
   reason by structural induction on strings and want it to compute. *)
#[local] Arguments String.append !s1 s2 : simpl nomatch.

(** ** Python's [str] operations used by the program *)

Module Text.

Definition nl : ascii := "010"%char.
Definition NL : string := String nl "".

(** [s.startswith(p)] *)
Fixpoint startswith (p s : string) : bool :=
  match p, s with
  | EmptyString, _ => true
  | String a p', String b s' => if Ascii.eqb a b then startswith p' s' else false
  | String _ _, EmptyString => false
  end.

(** [needle in hay] *)
Fixpoint occurs (needle hay : string) : bool :=
  if startswith needle hay then true
  else match hay with
       | EmptyString => false
       | String _ hay' => occurs needle hay'
       end.

(** [s.split(sep)] for a one-character separator: one more piece than
    there are separators. *)
Fixpoint split_on (sep : ascii) (s : string) : list string :=
  match s with
  | EmptyString => [EmptyString]
  | String c s' =>
      if Ascii.eqb c sep then EmptyString :: split_on sep s'
      else match split_on sep s' with
           | h :: t => String c h :: t
           | [] => [String c EmptyString]
           end
  end.

(** [s.split("\n")] *)
Definition split_nl (s : string) : list string := split_on nl s.

(** [s.rpartition(sep)] without the separator: the text before and after
    the last [sep], or [None] when [sep] does not occur. *)
Fixpoint rpartition (sep : ascii) (s : string) : option (string * string) :=
  match s with
  | EmptyString => None
  | String c s' =>
      match rpartition sep s' with
      | Some (l, r) => Some (String c l, r)
      | None => if Ascii.eqb c sep then Some (EmptyString, s') else None
      end
  end.

(** [sep.join(items)] *)
Fixpoint join (sep : string) (items : list string) : string :=
  match items with
  | [] => ""
  | [x] => x
  | x :: rest => x +:+ sep +:+ join sep rest
  end.

(** Iterating a [str] yields its characters as one-character strings. *)
Fixpoint chars (s : string) : list string :=
  match s with
  | EmptyString => []
  | String c s' => String c "" :: chars s'
  end.

(** A character of a text is its code point, and the texts of the model
    are those whose code points lie below 256.  White space as
    [str.strip()] sees it (the characters for which [str.isspace()]
    holds) is, among them: TAB, LF, VT, FF, CR, FS, GS, RS, US, the
    space, NEL (133) and the no-break space (160). *)
Definition is_space (c : ascii) : bool :=
  let n := nat_of_ascii c in
  ((9 <=? n) && (n <=? 13)) || ((28 <=? n) && (n <=? 32))
  || (n =? 133) || (n =? 160).

Fixpoint lstrip (s : string) : string :=
  match s with
  | String c s' => if is_space c then lstrip s' else s
  | EmptyString => EmptyString
  end.

Fixpoint rstrip (s : string) : string :=
  match s with
  | EmptyString => EmptyString
  | String c s' =>
      match rstrip s' with
      | EmptyString => if is_space c then EmptyString else String c EmptyString
      | r => String c r
      end
  end.


(** [s.strip()] *)
Definition strip (s : string) : string := rstrip (lstrip s).

Definition cr : ascii := "013"%char.

(** What reading a file opened in text mode with the default [newline]
    makes of its content: every CR LF and every CR left alone is read as
    one LF. *)
Fixpoint universal_newlines (s : string) : string :=
  match s with
  | EmptyString => EmptyString
  | String c s' =>
      if Ascii.eqb c cr
      then String nl
             match s' with
             | String c' s'' =>
                 if Ascii.eqb c' nl then universal_newlines s''
                 else universal_newlines s'
             | EmptyString => EmptyString
             end
      else String c (universal_newlines s')
  end.


(** Python truthiness of a [str]. *)
Definition truthy (s : string) : bool :=
  match s with EmptyString => false | _ => true end.

(** [f"{i}"] for a non-negative [int]. *)
Definition of_nat (n : nat) : string :=
  DecimalString.NilEmpty.string_of_uint (Nat.to_uint n).

End Text.

(** ** Exceptions the program can raise or let through

    [NotJSONError] is what reading a notebook raises on a file that holds
    no notebook, [JupytextFormatError] what it raises on a file whose
    extension names no notebook format.  [NotTextError] belongs to the
    model: a notebook file is kept parsed (see [File] below), so the model
    has no text to give when such a file is read as text. *)

Inductive exn : Type :=
  | ValueError (msg : string)
  | RuntimeError (msg : string)
  | FileNotFoundError (filename : list string)
  | NotJSONError (filename : list string)
  | JupytextFormatError (filename : list string)
  | NotTextError (filename : list string)
  | CalledProcessError (returncode : Z) (cmd : list string)
  | SystemExit (code : Z).

(** ** The part of [pathlib] the program uses *)

Module PathLib.

(** A path is the list of its components.  The anchor (root, drive) is
    left out: the program never inspects it. *)
Abbreviation Path := (list string) (only parsing).

(** [Path(s)] for a [str]: split at the separator, dropping empty and
    ["."] components. *)
Definition of_str (s : string) : Path :=
  filter (λ part, part ≠ "" ∧ part ≠ ".") (Text.split_on "/"%char s).

(** [str(p)] *)
Definition to_str (p : Path) : string :=
  match p with [] => "." | _ => Text.join "/" p end.

(** [p / name] for a file name without separator. *)
Definition joinpath (p : Path) (name : string) : Path := p ++ [name].

(** [p.parent] *)
Definition parent (p : Path) : Path := removelast p.

(** [p.name] *)
Definition name (p : Path) : string := List.last p "".

(** [p.suffix]: with [i = name.rfind(".")], the text [name[i:]] when
    [0 < i < len(name) - 1], and [""] otherwise. *)
Definition suffix (p : Path) : string :=
  match Text.rpartition "."%char (name p) with
  | Some (stem, ext) =>
      if Text.truthy stem && Text.truthy ext then "." +:+ ext else ""
  | None => ""
  end.

(** [p.stem] *)
Definition stem (p : Path) : string :=
  match Text.rpartition "."%char (name p) with
  | Some (stem, ext) =>
      if Text.truthy stem && Text.truthy ext then stem else name p
  | None => name p
  end.

(** [p.with_suffix(suffix)] *)
Definition with_suffix (p : Path) (suffix : string) : exn + Path :=
  if Text.occurs "/" suffix
  then inl (ValueError ("Invalid suffix " +:+ suffix))
  else if (Text.truthy suffix && negb (Text.startswith "." suffix))
          || String.eqb suffix "."
  then inl (ValueError ("Invalid suffix " +:+ suffix))
  else if negb (Text.truthy (name p))
  then inl (ValueError (to_str p +:+ " has an empty name"))
  else inr (parent p ++ [stem p +:+ suffix]).

End PathLib.

Import PathLib.

(** ** Notebook data, files and the world *)

Inductive CellType : Type := Code | Markdown | Raw.

#[global] Instance CellType_eq_dec : EqDecision CellType.
Proof. solve_decision. Defined.

(** A cell as the program sees it.  [metadata] stands for the cell's
    remaining JSON mapping; the program never looks inside. *)
Record Cell : Type := mkCell {
  cell_type : CellType;
  source : string;
  metadata : gmap string string;
  hidden : bool
}.

Definition set_source (c : Cell) (s : string) : Cell :=
  {| cell_type := cell_type c; source := s;
     metadata := metadata c; hidden := hidden c |}.

(** A notebook as a value: what a notebook file holds. *)
Record Document : Type := mkDocument {
  doc_cells : list Cell;
  doc_metadata : gmap string string
}.

(** A notebook in memory: the Python list of its cell objects, each a
    reference into the object store, so that a mutation through one
    reference is seen through every other. *)
Record Notebook : Type := mkNotebook {
  nb_cells : list nat;
  nb_metadata : gmap string string
}.

(** A file holds plain text or a serialized notebook.  The notebook
    format itself is outside the program: a notebook file is kept as the
    document it holds.  Directories are not files of the model. *)
Inductive File : Type :=
  | TextFile (text : string)
  | NotebookFile (doc : Document).

(** One subprocess invocation: the argument vector and what was piped to
    standard input. *)
Record Event : Type := mkEvent {
  ev_argv : list string;
  ev_stdin : option string
}.

(** What a finished subprocess leaves behind. *)
Record Completed : Type := mkCompleted {
  returncode : Z;
  stdout : string;
  stderr : string;
  fs_after : gmap Path File
}.

Record World : Type := mkWorld {
  w_fs : gmap Path File;
  w_heap : gmap nat Cell;
  w_trace : list Event
}.

Definition with_fs (w : World) (fs : gmap Path File) : World :=
  {| w_fs := fs; w_heap := w_heap w; w_trace := w_trace w |}.

Definition with_heap (w : World) (h : gmap nat Cell) : World :=
  {| w_fs := w_fs w; w_heap := h; w_trace := w_trace w |}.

(** ** The monad: state passing with exceptions

    An exception keeps the world reached so far, as in Python. *)

Definition M (A : Type) : Type := World → (exn + A) * World.

Definition ret {A} (a : A) : M A := λ w, (inr a, w).

Definition raise {A} (e : exn) : M A := λ w, (inl e, w).

Definition bind {A B} (m : M A) (k : A → M B) : M B :=
  λ w, match m w with
       | (inr a, w') => k a w'
       | (inl e, w') => (inl e, w')
       end.

Definition lift {A} (r : exn + A) : M A := λ w, (r, w).

Declare Scope py_scope.
Delimit Scope py_scope with py.
Notation "x <- m ;; k" := (bind m (λ x, k))
  (at level 100, m at next level, right associativity) : py_scope.
Notation "m ;; k" := (bind m (λ _, k))
  (at level 100, right associativity) : py_scope.

(** ** Object store *)

(** Allocation of a fresh cell object. *)
Definition alloc (c : Cell) : M nat :=
  λ w, let l := fresh (dom (w_heap w)) in
       (inr l, with_heap w (<[l := c]> (w_heap w))).

(** Allocation of one object per cell of a list, in order. *)
Fixpoint alloc_cells (cs : list Cell) (h : gmap nat Cell)
  : list nat * gmap nat Cell :=
  match cs with
  | [] => ([], h)
  | c :: cs' =>
      let l := fresh (dom h) in
      let '(ls, h') := alloc_cells cs' (<[l := c]> h) in
      (l :: ls, h')
  end.

(** The cells a list of references stands for. *)
Definition deref (h : gmap nat Cell) (ls : list nat) : list Cell :=
  omap (λ l, h !! l) ls.

(** [cell["source"]] *)
Definition get_source (l : nat) : M string :=
  λ w, (inr (from_option source "" (w_heap w !! l)), w).

(** [cell["source"] = s] *)
Definition put_source (l : nat) (s : string) : M unit :=
  λ w, (inr tt, with_heap w (alter (λ c, set_source c s) l (w_heap w))).

(** ** File system *)

(** [p.exists()] *)
Definition exists_ (p : Path) : M bool :=
  λ w, (inr (bool_decide (is_Some (w_fs w !! p))), w).

(** [p.read_text()]: the file is read in text mode, with its line ends
    translated. *)
Definition read_text (p : Path) : M string :=
  λ w, match w_fs w !! p with
       | Some (TextFile s) => (inr (Text.universal_newlines s), w)
       | Some (NotebookFile _) => (inl (NotTextError p), w)
       | None => (inl (FileNotFoundError p), w)
       end.

(** [f.write(s); f.flush()] on the handle of the file at [p]. *)
Definition write_flush (p : Path) (s : string) : M unit :=
  λ w, (inr tt, with_fs w (<[p := TextFile s]> (w_fs w))).

(** [f.seek(0); f.read()] on the handle of the file at [p], which last
    held [written]: the text now at [p], and still [written] when the path
    no longer leads to a text file (the handle keeps what it wrote).  The
    handle is opened in text mode ([mode="w+"], default [newline]): the
    text is read with its line ends translated, while what was written
    went to the file as it was (the line separator being LF). *)
Definition seek_read (p : Path) (written : string) : M string :=
  λ w, match w_fs w !! p with
       | Some (TextFile s) => (inr (Text.universal_newlines s), w)
       | _ => (inr (Text.universal_newlines written), w)
       end.

(** ** The program *)

Module Juv.

(** The keyword-only arguments that [add], [add_notebook] and
    [uv_script] hand to one another by name. *)
Record Kw : Type := mkKw {
  packages : list string;
  requirements : option string;
  extras : option (list string);
  editable : bool;
  branch : option string;
  rev : option string;
  tag : option string;
  exclude_newer : option string
}.

(** Python truthiness of a [str | None]: [None] and [""] are false. *)
Definition truthy_opt (o : option string) : bool :=
  match o with Some s => Text.truthy s | None => false end.

(** The string behind a [str | None] known to be truthy. *)
Definition the (o : option string) : string := default "" o.

(** [find] of [_add.py]. *)
Fixpoint find {T : Type} (cb : T → bool) (items : list T) : option T :=
  match items with
  | [] => None
  | item :: rest => if cb item then Some item else find cb rest
  end.

(** The loop of [uv_pip_compile] that appends the packages to the
    requirements text. *)
Fixpoint append_packages (requirements_txt : string) (packages : list string)
  : string :=
  match packages with
  | [] => requirements_txt
  | package :: rest =>
      append_packages
        (if negb (Text.occurs package requirements_txt)
         then requirements_txt +:+ package +:+ Text.NL
         else requirements_txt)
        rest
  end.

(** The comprehension [[pkg for pkg in lines if "==" in pkg]]. *)
Fixpoint exact_versions (lines : list string) : list string :=
  match lines with
  | [] => []
  | pkg :: rest =>
      if Text.occurs "==" pkg then pkg :: exact_versions rest
      else exact_versions rest
  end.

(** The argument vector [uv_pip_compile] hands to [subprocess.run]. *)
Definition pip_compile_argv (uv_bin : string) (no_deps : bool)
    (exclude_newer : option string) : list string :=
  [uv_bin; "pip"; "compile"]
  ++ (if no_deps then ["--no-deps"] else [])
  ++ (if truthy_opt exclude_newer
      then ["--exclude-newer=" +:+ the exclude_newer] else [])
  ++ ["-"].

(** The list [uv_script] hands to [uv]. *)
Definition uv_script_args (script : Path) (kw : Kw) : list string :=
  ["add"]
  ++ (if truthy_opt (requirements kw)
      then ["--requirements"; the (requirements kw)] else [])
  ++ map (λ extra, "--extra=" +:+ extra) (default [] (extras kw))
  ++ (if editable kw then ["--editable"] else [])
  ++ (if truthy_opt (tag kw) then ["--tag=" +:+ the (tag kw)] else [])
  ++ (if truthy_opt (branch kw) then ["--branch=" +:+ the (branch kw)] else [])
  ++ (if truthy_opt (rev kw) then ["--rev=" +:+ the (rev kw)] else [])
  ++ (if truthy_opt (exclude_newer kw)
      then ["--exclude-newer=" +:+ the (exclude_newer kw)] else [])
  ++ ["--script"; to_str script]
  ++ packages kw.

(** Modelled from the spec: [code_cell] of [_nbutils.py], the
    collaborator [new_code_cell(source, hidden) -> Cell]: a code cell
    with the given source and hidden flag and nothing else. *)
Definition code_cell (source : string) (hidden : bool) : Cell :=
  {| cell_type := Code; source := source; metadata := ∅; hidden := hidden |}.

(** Modelled from the spec: [new_notebook] of [_nbutils.py], the
    collaborator [new_document(cells) -> Document]. *)
Definition new_notebook (cells : list nat) : Notebook :=
  {| nb_cells := cells; nb_metadata := ∅ |}.

(** Modelled from the spec: [write_ipynb] of [_nbutils.py], the
    collaborator [write(Document, path)]: the file at [path] becomes the
    notebook as it stands in memory. *)
Definition write_ipynb (nb : Notebook) (path : Path) : M unit :=
  λ w, (inr tt,
        with_fs w (<[path := NotebookFile
                       {| doc_cells := deref (w_heap w) (nb_cells nb);
                          doc_metadata := nb_metadata nb |}]> (w_fs w))).

(** [jupytext.read(path, fmt="ipynb")].  The file is opened first; the
    format is then taken from the extension of [path], which overrides
    the [fmt] given.  With the extension [.ipynb] the file is read as a
    notebook and every cell becomes a fresh object.  With another
    extension jupytext reads the text format the extension names and
    raises when it names none, as [.txt] does; the text formats ([.py],
    [.md] and the like) are outside the model, which raises for every
    other extension.  The statements below about the notebook flow are
    therefore made for paths with the extension [.ipynb] only. *)
Definition jupytext_read (path : Path) : M Notebook :=
  λ w, match w_fs w !! path with
       | None => (inl (FileNotFoundError path), w)
       | Some file =>
           if negb (String.eqb (suffix path) ".ipynb")
           then (inl (JupytextFormatError path), w)
           else match file with
                | NotebookFile d =>
                    let '(ls, h) := alloc_cells (doc_cells d) (w_heap w) in
                    (inr {| nb_cells := ls; nb_metadata := doc_metadata d |},
                     with_heap w h)
                | TextFile _ => (inl (NotJSONError path), w)
                end
       end.

Section Program.

(** The oracles: the path of the binary, [find_uv_bin()]; the binary
    itself, which answers an argument vector and a standard input and may
    change any file; the predicate of [_pep723.py]; and the name
    [tempfile] picks for a new file in a directory. *)
Variable find_uv_bin : string.
Variable tool : list string → option string → gmap Path File → Completed.
Variable includes_inline_metadata : string → bool.
Variable tmp_name : gmap Path File → Path → string → string.

(** The current directory, [Path.cwd()]. *)
Variable cwd : Path.

Local Open Scope py_scope.

(** [subprocess.run(argv, input=...)]: the tool acts on the file
    system and the invocation is logged. *)
Definition subprocess_run (argv : list string) (input : option string)
  : M Completed :=
  λ w, let r := tool argv input (w_fs w) in
       (inr r, {| w_fs := fs_after r; w_heap := w_heap w;
                  w_trace := w_trace w ++ [mkEvent argv input] |}).

(** Modelled from the spec: [uv] of [_uv.py], the subprocess call to
    the package-manager binary; with [check] a non-zero exit is fatal
    for the invocation. *)
Definition uv (args : list string) (check : bool) : M Completed :=
  r <- subprocess_run (find_uv_bin :: args) None ;;
  if check && negb (returncode r =? 0)%Z
  then raise (CalledProcessError (returncode r) (find_uv_bin :: args))
  else ret r.

(** [with tempfile.NamedTemporaryFile(mode="w+", delete=True,
    suffix=..., dir=...) as f: body]: the file exists, empty, while
    the body runs and is removed on every way out. *)
Definition with_tempfile {A} (dir : Path) (suffix : string)
    (body : Path → M A) : M A :=
  λ w, let f := joinpath dir (tmp_name (w_fs w) dir suffix) in
       let '(r, w') := body f (with_fs w (<[f := TextFile ""]> (w_fs w))) in
       (r, with_fs w' (delete f (w_fs w'))).

Definition uv_pip_compile (packages : list string)
    (requirements : option string) (no_deps : bool)
    (exclude_newer : option string) : M (list string) :=
  requirements_txt <-
    match requirements with
    | None => ret ""
    | Some r => read_text (of_str r)
    end ;;
  let requirements_txt := append_packages requirements_txt packages in
  result <- subprocess_run
              (pip_compile_argv find_uv_bin no_deps exclude_newer)
              (Some requirements_txt) ;;
  if negb (returncode result =? 0)%Z
  then raise (RuntimeError (stderr result))
  else ret (exact_versions (Text.split_nl (stdout result))).

Definition uv_script (script : Path) (kw : Kw) : M unit :=
  uv (uv_script_args script kw) true ;;
  ret tt.

(** The condition [add_notebook] searches the cells with. *)
Definition is_manifest (c : Cell) : bool :=
  bool_decide (cell_type c = Code)
  && includes_inline_metadata (Text.join "" (Text.chars (source c))).

(** Lines 119 to 129 of [add_notebook]: the cell that holds the
    manifest, made and put first when there is none. *)
Definition locate_or_create (notebook : Notebook) : M (Notebook * nat) :=
  λ w,
    match find (λ l, from_option is_manifest false (w_heap w !! l))
               (nb_cells notebook) with
    | Some cell => (inr (notebook, cell), w)
    | None =>
        (l <- alloc (code_cell "" true) ;;
         let notebook' := {| nb_cells := l :: nb_cells notebook;
                             nb_metadata := nb_metadata notebook |} in
         ret (notebook', hd l (nb_cells notebook'))) w
    end.

Definition add_notebook (path : Path) (kw : Kw) : M unit :=
  notebook <- jupytext_read path ;;
  located <- locate_or_create notebook ;;
  let '(notebook, cell) := located in
  with_tempfile (parent path) ".py" (λ f,
    src <- get_source cell ;;
    write_flush f (Text.strip src) ;;
    uv_script f kw ;;
    text <- seek_read f (Text.strip src) ;;
    put_source cell (Text.strip text)) ;;
  target <- lift (with_suffix path ".ipynb") ;;
  write_ipynb notebook target.

Definition add (path : Path) (kw : Kw) (pin : bool) : M unit :=
  pinned <-
    (if pin
     then packages <- uv_pip_compile (packages kw) (requirements kw)
                        true (exclude_newer kw) ;;
          ret (packages, None)
     else ret (packages kw, requirements kw)) ;;
  let '(packages, requirements) := pinned in
  (if String.eqb (suffix path) ".ipynb" then add_notebook else uv_script)
    path
    {| packages := packages; requirements := requirements;
       extras := extras kw; editable := editable kw;
       branch := branch kw; rev := rev kw; tag := tag kw;
       exclude_newer := exclude_newer kw |}.

(** ** [_init.py] *)

Definition new_notebook_with_inline_metadata (directory : Path)
    (python : option string) : M Notebook :=
  with_tempfile directory ".py" (λ f,
    uv (["init"]
        ++ (if truthy_opt python then ["--python"; the python] else [])
        ++ ["--script"; to_str f]) true ;;
    text <- seek_read f "" ;;
    let contents := Text.strip text in
    c1 <- alloc (code_cell contents true) ;;
    c2 <- alloc (code_cell "" false) ;;
    ret (new_notebook [c1; c2])).

(** The loop [for i in range(1, 100)] with its early return, and the
    [raise] that follows it. *)
Fixpoint untitled_loop (directory : Path) (range : list nat) : M Path :=
  match range with
  | [] => raise (ValueError "Could not find an available UntitledX.ipynb")
  | i :: rest =>
      let candidate :=
        joinpath directory ("Untitled" +:+ Text.of_nat i +:+ ".ipynb") in
      taken <- exists_ candidate ;;
      if negb taken then ret candidate else untitled_loop directory rest
  end.

Definition get_first_non_conflicting_untitled_ipynb (directory : Path)
  : M Path :=
  taken <- exists_ (joinpath directory "Untitled.ipynb") ;;
  if negb taken then ret (joinpath directory "Untitled.ipynb")
  else untitled_loop directory (seq 1 99).

Definition init (path : option Path) (python : option string)
    (packages : list string) : M Path :=
  path <- match path with
          | None => get_first_non_conflicting_untitled_ipynb cwd
          | Some p => ret p
          end ;;
  if negb (String.eqb (suffix path) ".ipynb")
  then raise (SystemExit 1)
  else
    notebook <- new_notebook_with_inline_metadata (parent path) python ;;
    write_ipynb notebook path ;;
    (if 0 <? length packages
     then add path {| packages := packages; requirements := None;
                      extras := None; editable := false; branch := None;
                      rev := None; tag := None; exclude_newer := None |}
              false
     else ret tt) ;;
    ret path.

End Program.

End Juv.

(** ** A small concrete world to run the program in *)

Module Demo.
Import Juv.

Definition uv_bin : string := "uv".

(** The file named after [--script] in an argument vector. *)
Fixpoint script_of (argv : list string) : option Path :=
  match argv with
  | flag :: rest =>
      if String.eqb flag "--script"
      then match rest with f :: _ => Some (of_str f) | [] => None end
      else script_of rest
  | [] => None
  end.

(** The packages after the script in an argument vector. *)
Fixpoint packages_of (argv : list string) : list string :=
  match argv with
  | flag :: rest =>
      if String.eqb flag "--script" then tl rest else packages_of rest
  | [] => []
  end.

Definition block (pkgs : list string) : string :=
  "# /// script" +:+ Text.NL +:+
  "# dependencies = [" +:+ Text.join ", " pkgs +:+ "]" +:+ Text.NL +:+
  "# ///" +:+ Text.NL.

(** A stand-in for the binary: [pip compile] answers with a header line
    and one pin per input line and touches no file; [init] and [add]
    write a metadata block at the head of the script they are given and
    leave a notebook file as it is. *)
Definition toy_tool (argv : list string) (input : option string)
    (fs : gmap Path File) : Completed :=
  match argv with
  | _ :: "pip" :: _ =>
      {| returncode := 0;
         stdout := "# compiled by the stand-in" +:+ Text.NL +:+
                   Text.join ""
                     (map (λ l, l +:+ "==2.31.0" +:+ Text.NL)
                        (filter (λ l, l ≠ "")
                           (Text.split_nl (default "" input))));
         stderr := ""; fs_after := fs |}
  | _ :: _ :: _ =>
      match script_of argv with
      | Some f =>
          match fs !! f with
          | Some (NotebookFile _) =>
              {| returncode := 0; stdout := ""; stderr := ""; fs_after := fs |}
          | Some (TextFile old) =>
              {| returncode := 0; stdout := ""; stderr := "";
                 fs_after :=
                   <[f := TextFile (block (packages_of argv) +:+ old)]> fs |}
          | None =>
              {| returncode := 0; stdout := ""; stderr := "";
                 fs_after := <[f := TextFile (block (packages_of argv))]> fs |}
          end
      | None =>
          {| returncode := 2; stdout := ""; stderr := "no script";
             fs_after := fs |}
      end
  | _ => {| returncode := 2; stdout := ""; stderr := "usage"; fs_after := fs |}
  end.

(** A stand-in for the binary that always fails. *)
Definition failing_tool (argv : list string) (input : option string)
    (fs : gmap Path File) : Completed :=
  {| returncode := 1; stdout := ""; stderr := "error: no solution";
     fs_after := fs |}.


(** A stand-in for the predicate: the opening marker occurs. *)
Definition has_marker (text : string) : bool :=
  Text.occurs "# /// script" text.

Definition toy_tmp (fs : gmap Path File) (dir : Path) (suffix : string)
  : string := "tmpjuv" +:+ suffix.

Definition no_kw (pkgs : list string) : Kw :=
  {| packages := pkgs; requirements := None; extras := None;
     editable := false; branch := None; rev := None; tag := None;
     exclude_newer := None |}.

Definition world (fs : gmap Path File) : World :=
  {| w_fs := fs; w_heap := ∅; w_trace := [] |}.

Definition markdown (text : string) : Cell :=
  {| cell_type := Markdown; source := text; metadata := ∅; hidden := false |}.

Definition plain_doc : Document :=
  {| doc_cells := [markdown "# Title"; code_cell "print(1)" false];
     doc_metadata := {["kernelspec" := "python3"]} |}.

(** A notebook whose second cell holds the manifest. *)
Definition manifest_doc : Document :=
  {| doc_cells :=
       [markdown "# Title";
        {| cell_type := Code;
           source := "# /// script" +:+ Text.NL +:+ "# dependencies = []"
                     +:+ Text.NL +:+ "# ///";
           metadata := {["tags" := "setup"]}; hidden := true |};
        code_cell "print(1)" false];
     doc_metadata := {["kernelspec" := "python3"]} |}.


End Demo.

(** ** Definitions that follow the specification's words

    Each is compared below with the definition taken from the source. *)

Module Spec.
Import Juv.

(** One step of the textual union: a package whose string is absent
    from the text so far gets a line of its own. *)
Definition union_step (text package : string) : string :=
  if Text.occurs package text then text else text +:+ package +:+ Text.NL.

(** The combined requirements text: the existing content, then the
    packages in order, each judged against the text accumulated so far. *)
Definition combined_text (existing : string) (packages : list string)
  : string :=
  fold_left union_step packages existing.

(** The content of the requirements file as it is read (in text mode),
    empty when none is given; [None] when the file cannot be read as
    text. *)
Definition existing_text (requirements : option string)
    (fs : gmap Path File) : option string :=
  match requirements with
  | None => Some ""
  | Some r =>
      match fs !! of_str r with
      | Some (TextFile s) => Some (Text.universal_newlines s)
      | _ => None
      end
  end.

(** A flag [--name=<v>] for a supplied value, nothing for an omitted
    one. *)
Definition flag (name : string) (v : option string) : list string :=
  match v with
  | Some x => [name +:+ "=" +:+ x]
  | None => []
  end.

(** The template
    [add [--requirements <file>] [--extra=<e>]* [--editable] [--tag=<t>]
     [--branch=<b>] [--rev=<r>] [--exclude-newer=<d>] --script <file>
     <pkg>...], reading "supplied" as "not [None]". *)
Definition template (script : string) (kw : Kw) : list string :=
  ["add"]
  ++ match requirements kw with
     | Some file => ["--requirements"; file]
     | None => []
     end
  ++ map (λ e, "--extra=" +:+ e) (default [] (extras kw))
  ++ (if editable kw then ["--editable"] else [])
  ++ flag "--tag" (tag kw)
  ++ flag "--branch" (branch kw)
  ++ flag "--rev" (rev kw)
  ++ flag "--exclude-newer" (exclude_newer kw)
  ++ ["--script"; script]
  ++ packages kw.

(** An optional text with the empty string counted as omitted. *)
Definition nonempty (v : option string) : option string :=
  match v with
  | Some "" => None
  | _ => v
  end.

Definition nonempty_kw (kw : Kw) : Kw :=
  {| packages := packages kw;
     requirements := nonempty (requirements kw);
     extras := extras kw;
     editable := editable kw;
     branch := nonempty (branch kw);
     rev := nonempty (rev kw);
     tag := nonempty (tag kw);
     exclude_newer := nonempty (exclude_newer kw) |}.

(** The names [Untitled.ipynb], [Untitled1.ipynb], ...,
    [Untitled99.ipynb], in this order. *)
Definition untitled_names : list string :=
  "Untitled.ipynb"
  :: map (λ i, "Untitled" +:+ Text.of_nat i +:+ ".ipynb") (seq 1 99).

(** The first of [names] that is free in [directory]. *)
Definition first_free (fs : gmap Path File) (directory : Path)
    (names : list string) : option string :=
  List.find (λ n, bool_decide (fs !! joinpath directory n = None)) names.

(** The keyword arguments [add] passes onward after a pin step that
    returned [pinned]. *)
Definition pinned_kw (kw : Kw) (pinned : list string) : Kw :=
  {| packages := pinned; requirements := None;
     extras := extras kw; editable := editable kw;
     branch := branch kw; rev := rev kw; tag := tag kw;
     exclude_newer := exclude_newer kw |}.

End Spec.

(** ** Claims of the specification that the theorems below measure the
    program against, stated as they are written *)

Module Stated.
Import Juv.

(** [uv_pip_compile] raises an error if and only if the subprocess
    exits with a non-zero code. *)
Definition raises_iff_nonzero_exit
    (find_uv_bin : string)
    (tool : list string → option string → gmap Path File → Completed)
    (packages : list string) (requirements : option string)
    (no_deps : bool) (exclude_newer : option string) (w : World) : Prop :=
  let out := uv_pip_compile find_uv_bin tool packages requirements
               no_deps exclude_newer w in
  (∃ e, out.1 = inl e)
  ↔ (∃ ev, w_trace out.2 = w_trace w ++ [ev]
           ∧ returncode (tool (ev_argv ev) (ev_stdin ev) (w_fs w)) ≠ 0%Z).

(** The argument vector of [uv_script] is the template with every
    parameter that is not [None] counted as supplied. *)
Definition argv_follows_template (script : Path) (kw : Kw) : Prop :=
  uv_script_args script kw = Spec.template (to_str script) kw.



(** Every package the loop of [uv_pip_compile] appends stands on a line
    of its own in the text that results. *)
Definition appended_as_own_line (existing : string) (packages : list string)
  : Prop :=
  ∀ before package after,
    packages = before ++ package :: after →
    Text.occurs package (append_packages existing before) = false →
    package ∈ Text.split_nl (append_packages existing packages).



End Stated.

(** ** References and the cells they stand for *)

Module Store.
Import Juv.

(** The references [ls] stand, one by one, for the cells [cs]. *)
Definition points_to (h : gmap nat Cell) (ls : list nat) (cs : list Cell)
  : Prop :=
  Forall2 (λ l c, h !! l = Some c) ls cs.

(** The index of the first item that satisfies a condition. *)
Fixpoint first_index {T : Type} (cb : T → bool) (items : list T)
  : option nat :=
  match items with
  | [] => None
  | item :: rest =>
      if cb item then Some 0 else S <$> first_index cb rest
  end.

(** The position of the manifest cell and the cells once it is there:
    the first manifest cell where it stands, or a new hidden empty
    code cell in front. *)
Definition manifest_slot (is_manifest : Cell → bool) (cells : list Cell)
  : nat * list Cell :=
  match first_index is_manifest cells with
  | Some i => (i, cells)
  | None => (0, code_cell "" true :: cells)
  end.

(** The manifest cell itself. *)
Definition manifest_cell (is_manifest : Cell → bool) (cells : list Cell)
  : Cell :=
  let slot := manifest_slot is_manifest cells in
  default (code_cell "" true) (slot.2 !! slot.1).

End Store.

(** ** The notebook flow of [add_notebook] in closed form

    What one run of [add_notebook] on a notebook file holding the document
    [d] hands to the tool and makes of its answer. *)

Module Flow.
Import Juv Store.

Section ClosedForm.

Variable find_uv_bin : string.
Variable tool : list string → option string → gmap Path File → Completed.
Variable includes_inline_metadata : string → bool.
Variable tmp_name : gmap Path File → Path → string → string.

(** The temporary script, beside the notebook. *)
Definition script_path (path : Path) (fs : gmap Path File) : Path :=
  joinpath (parent path) (tmp_name fs (parent path) ".py").

(** The text written to the temporary script. *)
Definition script_text (d : Document) : string :=
  Text.strip
    (source (manifest_cell (is_manifest includes_inline_metadata) (doc_cells d))).

(** The argument vector of the one invocation. *)
Definition script_argv (path : Path) (kw : Kw) (fs : gmap Path File)
  : list string :=
  find_uv_bin :: uv_script_args (script_path path fs) kw.

(** What the tool answers. *)
Definition script_result (path : Path) (kw : Kw) (fs : gmap Path File)
    (d : Document) : Completed :=
  tool (script_argv path kw fs) None
    (<[script_path path fs := TextFile (script_text d)]> fs).

(** The source the manifest cell gets. *)
Definition new_source (path : Path) (kw : Kw) (fs : gmap Path File)
    (d : Document) : string :=
  Text.strip
    (Text.universal_newlines
       match fs_after (script_result path kw fs d) !! script_path path fs with
       | Some (TextFile s) => s
       | _ => script_text d
       end).

(** The document that is written back. *)
Definition rewritten (path : Path) (kw : Kw) (fs : gmap Path File)
    (d : Document) : Document :=
  let slot := manifest_slot (is_manifest includes_inline_metadata)
                (doc_cells d) in
  {| doc_cells :=
       <[slot.1 := set_source
                     (manifest_cell (is_manifest includes_inline_metadata)
                        (doc_cells d))
                     (new_source path kw fs d)]> slot.2;
     doc_metadata := doc_metadata d |}.

(** The files the run leaves, the written notebook apart. *)
Definition files_left (path : Path) (kw : Kw) (fs : gmap Path File)
    (d : Document) : gmap Path File :=
  delete (script_path path fs) (fs_after (script_result path kw fs d)).

(** The outcome of the optional pin step of [add]: the keyword arguments
    and the world [add] goes on with. *)
Definition pin_outcome (kw : Kw) (pin : bool) (w : World)
    (kw1 : Kw) (w1 : World) : Prop :=
  if pin
  then ∃ pinned,
         uv_pip_compile find_uv_bin tool (packages kw) (requirements kw)
           true (exclude_newer kw) w = (inr pinned, w1)
         ∧ kw1 = Spec.pinned_kw kw pinned
  else kw1 = kw ∧ w1 = w.

(** The same for [init] in the directory [cwd]: the temporary script,
    the invocation, the tool's answer and the notebook that is written. *)
Definition init_script (cwd : Path) (fs : gmap Path File) : Path :=
  joinpath cwd (tmp_name fs cwd ".py").

Definition init_argv (cwd : Path) (python : option string)
    (fs : gmap Path File) : list string :=
  find_uv_bin
  :: ["init"]
     ++ (if truthy_opt python then ["--python"; the python] else [])
     ++ ["--script"; to_str (init_script cwd fs)].

Definition init_result (cwd : Path) (python : option string)
    (fs : gmap Path File) : Completed :=
  tool (init_argv cwd python fs) None
    (<[init_script cwd fs := TextFile ""]> fs).

Definition init_document (cwd : Path) (python : option string)
    (fs : gmap Path File) : Document :=
  {| doc_cells :=
       [code_cell
          (Text.strip
             (Text.universal_newlines
                match fs_after (init_result cwd python fs)
                      !! init_script cwd fs with
                | Some (TextFile s) => s
                | _ => ""
                end))
          true;
        code_cell "" false];
     doc_metadata := ∅ |}.

End ClosedForm.

End Flow.

(** ** Further definitions used to state properties of [init] and [add] *)

Module Calls.
Import Juv.

(** The keyword arguments of the call
    [add(path=path, packages=packages, requirements=None)] in [init]:
    every other parameter at its default. *)
Definition add_defaults (pkgs : list string) : Kw :=
  {| packages := pkgs; requirements := None; extras := None;
     editable := false; branch := None; rev := None; tag := None;
     exclude_newer := None |}.

(** The path [init] works on: the one supplied, or the first free
    [Untitled] name in the current directory. *)
Definition chosen_path (cwd : Path) (path : option Path)
    (fs : gmap Path File) : option Path :=
  match path with
  | Some p => Some p
  | None => joinpath cwd <$> Spec.first_free fs cwd Spec.untitled_names
  end.

(** What [init] does once the path is settled and has the notebook
    extension: lines 91 to 99. *)
Definition init_at
    (find_uv_bin : string)
    (tool : list string → option string → gmap Path File → Completed)
    (includes_inline_metadata : string → bool)
    (tmp_name : gmap Path File → Path → string → string)
    (path : Path) (python : option string) (pkgs : list string) : M Path :=
  bind (new_notebook_with_inline_metadata find_uv_bin tool tmp_name
          (parent path) python)
    (λ notebook,
       bind (write_ipynb notebook path)
         (λ _,
            bind (if 0 <? length pkgs
                  then add find_uv_bin tool includes_inline_metadata tmp_name
                         path (add_defaults pkgs) false
                  else ret tt)
              (λ _, ret path))).

End Calls.

(** ** Texts made of whole lines *)

Module Lines.

(** A text whose last line is ended: the empty text, or one that ends
    with a newline. *)
Fixpoint ended (t : string) : bool :=
  match t with
  | EmptyString => true
  | String c rest =>
      match rest with
      | EmptyString => Ascii.eqb c Text.nl
      | String _ _ => ended rest
      end
  end.

(** A text that holds no newline. *)
Definition one_line (t : string) : bool := negb (Text.occurs Text.NL t).

End Lines.

(** ** More sample inputs *)

Module Samples.
Import Juv.





(** Keyword arguments that name a requirements file. *)
Definition reqs_kw : Kw :=
  {| packages := ["requests"]; requirements := Some "reqs.txt";
     extras := None; editable := false; branch := None; rev := None;
     tag := None; exclude_newer := None |}.

End Samples.
(** * Facts about the models *)

(** ** Strings *)

Module TextFacts.
Import Text.

Lemma app_nil_r (s : string) : s +:+ "" = s.
Proof. induction s as [|c s IH]; simpl; [done | by rewrite IH]. Qed.

Lemma app_assoc (a b c : string) : (a +:+ b) +:+ c = a +:+ (b +:+ c).
Proof. induction a as [|x a IH]; simpl; [done | by rewrite IH]. Qed.

Lemma startswith_spec (p s : string) :
  startswith p s = true ↔ ∃ r, s = p +:+ r.
Proof.
  revert s. induction p as [|a p IH]; intros s; simpl.
  - split; [intros _; by exists s | done].
  - destruct s as [|b s]; simpl.
    + split; [done | intros [r Hr]; discriminate].
    + destruct (Ascii.eqb_spec a b) as [->|Hne].
      * rewrite IH. split; intros [r Hr]; exists r; congruence.
      * split; [done | intros [r Hr]; congruence].
Qed.

Lemma occurs_spec (needle hay : string) :
  occurs needle hay = true ↔ ∃ l r, hay = l +:+ needle +:+ r.
Proof.
  induction hay as [|c hay IH]; simpl.
  - destruct (startswith needle "") eqn:E.
    + split; [intros _ | done].
      apply startswith_spec in E as [r Hr]. by exists "", r.
    + split; [done |]. intros (l & r & H).
      destruct l; simpl in H.
      * assert (startswith needle "" = true) as E'
          by (apply startswith_spec; by exists r).
        congruence.
      * discriminate.
  - destruct (startswith needle (String c hay)) eqn:E.
    + split; [intros _ | done].
      apply startswith_spec in E as [r Hr]. by exists "", r.
    + rewrite IH. split.
      * intros (l & r & ->). by exists (String c l), r.
      * intros (l & r & H). destruct l as [|x l]; simpl in H.
        -- assert (startswith needle (String c hay) = true) as E'
             by (apply startswith_spec; by exists r).
           congruence.
        -- injection H as -> ->. by exists l, r.
Qed.

Lemma occurs_empty (hay : string) : occurs "" hay = true.
Proof. by destruct hay. Qed.

Lemma split_on_nonempty (sep : ascii) (s : string) : split_on sep s ≠ [].
Proof.
  induction s as [|c s IH]; simpl; [done |].
  destruct (Ascii.eqb c sep); [done |]. by destruct (split_on sep s).
Qed.

(** Joining the pieces with the separator gives the text back. *)
Lemma join_split_on (sep : ascii) (s : string) :
  join (String sep "") (split_on sep s) = s.
Proof.
  induction s as [|c s IH]; simpl; [done |].
  pose proof (split_on_nonempty sep s) as Hs.
  destruct (Ascii.eqb_spec c sep) as [->|Hne].
  - destruct (split_on sep s) as [|h t] eqn:E; [done |].
    change (join (String sep "") ("" :: h :: t))
      with ("" +:+ String sep "" +:+ join (String sep "") (h :: t)).
    by rewrite IH.
  - destruct (split_on sep s) as [|h t] eqn:E; [done |].
    destruct t as [|h' t]; simpl in *; by rewrite <- IH.
Qed.

Lemma join_split_nl (s : string) : join NL (split_nl s) = s.
Proof. apply join_split_on. Qed.

(** No piece of a split holds the separator. *)
Lemma split_on_no_sep (sep : ascii) (s : string) :
  Forall (λ piece, occurs (String sep "") piece = false) (split_on sep s).
Proof.
  induction s as [|c s IH]; simpl; [by repeat constructor |].
  pose proof (split_on_nonempty sep s) as Hs.
  destruct (Ascii.eqb_spec c sep) as [->|Hne].
  - by constructor.
  - destruct (split_on sep s) as [|h t]; [done |].
    inversion IH as [|? ? Hh Ht]; subst. constructor; [| done].
    simpl. destruct (Ascii.eqb_spec sep c) as [->|_]; [done |].
    destruct h; simpl in *; done.
Qed.

Lemma rpartition_spec (sep : ascii) (s l r : string) :
  rpartition sep s = Some (l, r) →
  s = l +:+ String sep r ∧ occurs (String sep "") r = false.
Proof.
  revert l r. induction s as [|c s IH]; intros l r; simpl; [done |].
  destruct (rpartition sep s) as [[l' r']|] eqn:E.
  - intros [= <- <-]. destruct (IH _ _ eq_refl) as [-> Hr]. done.
  - destruct (Ascii.eqb_spec c sep) as [->|Hne]; [| done].
    intros [= <- <-]. split; [done |].
    clear IH. induction s as [|d s IHs]; [done |].
    simpl in E. destruct (rpartition sep s) as [[? ?]|]; [done |].
    destruct (Ascii.eqb_spec d sep) as [->|Hd]; [done |].
    simpl. destruct (Ascii.eqb_spec sep d) as [->|_]; [done |].
    specialize (IHs eq_refl). destruct s; simpl in *; done.
Qed.

Lemma join_empty_cons (x : string) (items : list string) :
  join "" (x :: items) = x +:+ join "" items.
Proof.
  destruct items as [|y items]; [by rewrite app_nil_r | done].
Qed.

(** ["".join(s)] over the characters of [s] is [s]. *)
Lemma join_chars (s : string) : join "" (chars s) = s.
Proof.
  induction s as [|c s IH]; simpl; [done |].
  destruct (chars s) as [|h t] eqn:E.
  - destruct s; [done | discriminate].
  - simpl in IH |- *. by rewrite IH.
Qed.

Lemma rpartition_None (sep : ascii) (s : string) :
  occurs (String sep "") s = false → rpartition sep s = None.
Proof.
  induction s as [|c s IH]; [done |].
  simpl. destruct (Ascii.eqb_spec sep c) as [->|Hne]; [done |].
  intros Hs. rewrite IH by (by destruct s).
  destruct (Ascii.eqb_spec c sep) as [->|_]; done.
Qed.

(** The last separator is where [rpartition] cuts. *)
Lemma rpartition_last (sep : ascii) (l r : string) :
  occurs (String sep "") r = false →
  rpartition sep (l +:+ String sep r) = Some (l, r).
Proof.
  intros Hr. induction l as [|c l IH]; simpl.
  - rewrite (rpartition_None _ _ Hr). by rewrite Ascii.eqb_refl.
  - by rewrite IH.
Qed.

(** *** Trimming *)










(** Splitting a text at a separator splits its two sides. *)
Lemma split_on_app_sep (sep : ascii) (a b : string) :
  split_on sep (a +:+ String sep b) = split_on sep a ++ split_on sep b.
Proof.
  induction a as [|c a IH]; cbn [String.append split_on].
  - by rewrite Ascii.eqb_refl.
  - rewrite IH. destruct (Ascii.eqb c sep); [done |].
    pose proof (split_on_nonempty sep a) as Ha.
    by destruct (split_on sep a).
Qed.

Lemma split_on_whole (sep : ascii) (s : string) :
  occurs (String sep "") s = false → split_on sep s = [s].
Proof.
  induction s as [|c s IH]; [done |]. cbn [occurs startswith split_on].
  rewrite (Ascii.eqb_sym c sep).
  destruct (Ascii.eqb sep c); [by destruct s |].
  intros Hs. by rewrite (IH Hs).
Qed.

End TextFacts.

(** ** Paths *)

Module PathFacts.

Lemma name_joinpath (p : Path) (n : string) : name (joinpath p n) = n.
Proof. unfold name, joinpath. apply last_last. Qed.

Lemma parent_joinpath (p : Path) (n : string) : parent (joinpath p n) = p.
Proof. unfold parent, joinpath. apply removelast_last. Qed.

Lemma parent_name (p : Path) : p ≠ [] → parent p ++ [name p] = p.
Proof. intros Hp. symmetry. by apply app_removelast_last. Qed.

(** A name with a suffix is its stem followed by the suffix. *)
Lemma stem_suffix (p : Path) : stem p +:+ suffix p = name p.
Proof.
  unfold stem, suffix.
  destruct (Text.rpartition "." (name p)) as [[st ext]|] eqn:E.
  - destruct (Text.truthy st && Text.truthy ext).
    + apply TextFacts.rpartition_spec in E as [-> _]. done.
    + apply TextFacts.app_nil_r.
  - apply TextFacts.app_nil_r.
Qed.

Lemma suffix_name_nonempty (p : Path) : suffix p ≠ "" → p ≠ [].
Proof. intros H ->. by apply H. Qed.

(** Giving a path the suffix it already has changes nothing. *)
Lemma with_suffix_same (p : Path) :
  suffix p = ".ipynb" → with_suffix p ".ipynb" = inr p.
Proof.
  intros Hs. unfold with_suffix. simpl.
  assert (p ≠ []) as Hp by (apply suffix_name_nonempty; by rewrite Hs).
  assert (name p = stem p +:+ ".ipynb") as Hn
    by (rewrite <- Hs; symmetry; apply stem_suffix).
  assert (Text.truthy (name p) = true) as ->.
  { rewrite Hn. destruct (stem p); done. }
  simpl. by rewrite <- Hn, parent_name.
Qed.

(** The notebook extension is the suffix of whatever [with_suffix]
    builds with it. *)
Lemma suffix_with_suffix (p q : Path) :
  with_suffix p ".ipynb" = inr q →
  parent q = parent p ∧ name q = stem p +:+ ".ipynb".
Proof.
  unfold with_suffix. simpl.
  destruct (Text.truthy (name p)); simpl; [| done].
  intros [= <-]. split.
  - apply parent_joinpath.
  - apply name_joinpath.
Qed.

Lemma stem_nonempty (p : Path) :
  Text.truthy (name p) = true → Text.truthy (stem p) = true.
Proof.
  intros Hn. unfold stem.
  destruct (Text.rpartition "." (name p)) as [[st ext]|]; [| done].
  destruct (Text.truthy st) eqn:Hst; simpl; [| done].
  by destruct (Text.truthy ext).
Qed.

(** What [with_suffix] builds has the notebook extension. *)
Lemma with_suffix_suffix (p q : Path) :
  with_suffix p ".ipynb" = inr q → suffix q = ".ipynb".
Proof.
  intros Hq. pose proof (suffix_with_suffix p q Hq) as [_ Hname].
  unfold with_suffix in Hq. simpl in Hq.
  destruct (Text.truthy (name p)) eqn:Hn; simpl in Hq; [| done].
  apply stem_nonempty in Hn.
  unfold suffix. rewrite Hname.
  change (stem p +:+ ".ipynb") with (stem p +:+ String "." "ipynb").
  rewrite TextFacts.rpartition_last by done.
  by rewrite Hn.
Qed.

End PathFacts.

(** * The compile step: [uv_pip_compile] *)

Module CompileFacts.
Import Juv.

Lemma append_packages_fold (existing : string) (pkgs : list string) :
  append_packages existing pkgs = Spec.combined_text existing pkgs.
Proof.
  unfold Spec.combined_text. revert existing.
  induction pkgs as [|p pkgs IH]; intros existing; simpl; [done |].
  rewrite IH. unfold Spec.union_step. by destruct (Text.occurs p existing).
Qed.

Lemma append_packages_app (existing : string) (before after : list string) :
  append_packages existing (before ++ after)
  = append_packages (append_packages existing before) after.
Proof.
  revert existing. induction before as [|p before IH]; intros existing;
    simpl; [done | apply IH].
Qed.

Lemma append_packages_snoc (existing : string) (before : list string)
    (p : string) :
  append_packages existing (before ++ [p])
  = if Text.occurs p (append_packages existing before)
    then append_packages existing before
    else append_packages existing before +:+ p +:+ Text.NL.
Proof.
  rewrite append_packages_app. simpl.
  by destruct (Text.occurs p (append_packages existing before)).
Qed.

(** The text only grows, by whole lines of packages taken in order. *)
Lemma append_packages_lines (existing : string) (pkgs : list string) :
  ∃ kept, kept `sublist_of` pkgs
          ∧ append_packages existing pkgs
            = existing +:+ Text.join "" (map (λ p, p +:+ Text.NL) kept).
Proof.
  revert existing. induction pkgs as [|p pkgs IH]; intros existing.
  - exists []. split; [done |]. simpl. by rewrite TextFacts.app_nil_r.
  - cbn [append_packages]. destruct (Text.occurs p existing); cbn [negb].
    + destruct (IH existing) as (kept & Hsub & ->).
      exists kept. split; [by apply sublist_cons | done].
    + destruct (IH (existing +:+ p +:+ Text.NL)) as (kept & Hsub & ->).
      exists (p :: kept). split; [by apply sublist_skip |].
      cbn [map]. rewrite TextFacts.join_empty_cons.
      by rewrite !TextFacts.app_assoc.
Qed.

Lemma exact_versions_filter (lines : list string) :
  exact_versions lines = filter (λ l, Text.occurs "==" l = true) lines.
Proof.
  induction lines as [|l lines IH]; [done |].
  cbn [exact_versions]. rewrite filter_cons, IH.
  destruct (Text.occurs "==" l) eqn:E.
  - by rewrite decide_True.
  - by rewrite decide_False.
Qed.

Section Oracles.
Variable find_uv_bin : string.
Variable tool : list string → option string → gmap Path File → Completed.

Abbreviation uv_pip_compile := (Juv.uv_pip_compile find_uv_bin tool).

(** What the step does once the requirements text is in hand. *)
Lemma uv_pip_compile_readable pkgs reqs nd excl w existing :
  Spec.existing_text reqs (w_fs w) = Some existing →
  let argv := pip_compile_argv find_uv_bin nd excl in
  let text := append_packages existing pkgs in
  let res := tool argv (Some text) (w_fs w) in
  uv_pip_compile pkgs reqs nd excl w
  = (if (returncode res =? 0)%Z
     then inr (exact_versions (Text.split_nl (stdout res)))
     else inl (RuntimeError (stderr res)),
     {| w_fs := fs_after res; w_heap := w_heap w;
        w_trace := w_trace w ++ [mkEvent argv (Some text)] |}).
Proof.
  intros Hex. unfold Juv.uv_pip_compile, bind, subprocess_run.
  assert (match reqs with
          | Some r => read_text (of_str r)
          | None => ret ""
          end w = (inr existing, w)) as ->.
  { destruct reqs as [r|]; simpl in Hex.
    - unfold read_text. destruct (w_fs w !! of_str r) as [[s|d]|]; naive_solver.
    - by injection Hex as <-. }
  simpl. by destruct (returncode _ =? 0)%Z.
Qed.

(** What it does when the requirements file cannot be read. *)
Lemma uv_pip_compile_unreadable pkgs reqs nd excl w :
  Spec.existing_text reqs (w_fs w) = None →
  ∃ r, reqs = Some r
       ∧ (uv_pip_compile pkgs reqs nd excl w
            = (inl (FileNotFoundError (of_str r)), w)
          ∨ uv_pip_compile pkgs reqs nd excl w
            = (inl (NotTextError (of_str r)), w)).
Proof.
  intros Hex. destruct reqs as [r|]; [| done]. exists r. split; [done |].
  unfold Juv.uv_pip_compile, bind, read_text. simpl in Hex.
  destruct (w_fs w !! of_str r) as [[s|d]|]; [done | by right | by left].
Qed.

End Oracles.

End CompileFacts.

(** ** Claims about the compile step *)

(** C5, at the input where the code departs from it.  The requirements
    file holds [numpy-financial] with no newline after it, and [pandas]
    is asked for.  The string [pandas] does not occur in the file, so the
    loop appends it and a newline, straight after the last character of
    the file: the tool is fed the one line [numpy-financialpandas], and
    [pandas] is no line of that text. *)
Theorem compile_glues_package_to_unended_line :
  let fs : gmap Path File :=
    {[ ["requirements.txt"] := TextFile "numpy-financial" ]} in
  let out := Juv.uv_pip_compile Demo.uv_bin Demo.toy_tool ["pandas"]
               (Some "requirements.txt") true None (Demo.world fs) in
  let text := Juv.append_packages "numpy-financial" ["pandas"] in
  Text.occurs "pandas" "numpy-financial" = false
  ∧ text = "numpy-financialpandas" +:+ Text.NL
  ∧ w_trace out.2
    = [mkEvent ["uv"; "pip"; "compile"; "--no-deps"; "-"] (Some text)]
  ∧ Text.split_nl text = ["numpy-financialpandas"; ""]
  ∧ ("pandas" ∉ Text.split_nl text)
  ∧ out.1 = inr ["numpy-financialpandas==2.31.0"]
  ∧ ¬ Stated.appended_as_own_line "numpy-financial" ["pandas"].
Proof.
  cbv zeta. split; [reflexivity |]. split; [reflexivity |].
  split; [reflexivity |]. split; [reflexivity |].
  assert ("pandas" ∉ Text.split_nl
                       (Juv.append_packages "numpy-financial" ["pandas"]))
    as Hnot.
  { change (Text.split_nl _) with ["numpy-financialpandas"; ""].
    intros Hin. apply elem_of_cons in Hin as [Hin|Hin]; [discriminate Hin |].
    apply elem_of_cons in Hin as [Hin|Hin]; [discriminate Hin |].
    by apply elem_of_nil in Hin. }
  split; [exact Hnot |]. split; [reflexivity |].
  intros Hclaim. apply Hnot.
  exact (Hclaim [] "pandas" [] eq_refl eq_refl).
Qed.

(** The text piped to the tool's standard input is the content of the
    requirements file (empty when none is given) followed, for each
    requested package in order whose string does not occur in the text
    accumulated so far, by that package and a newline; a package whose
    string already occurs in the accumulated text adds nothing. *)
Theorem compile_stdin_textual_union
    (find_uv_bin : string)
    (tool : list string → option string → gmap Path File → Completed)
    (pkgs : list string) (reqs : option string) (nd : bool)
    (excl : option string) (w : World) (existing : string) :
  Spec.existing_text reqs (w_fs w) = Some existing →
  let out := Juv.uv_pip_compile find_uv_bin tool pkgs reqs nd excl w in
  let text := Juv.append_packages existing pkgs in
  w_trace out.2
  = w_trace w ++ [mkEvent (Juv.pip_compile_argv find_uv_bin nd excl) (Some text)]
  ∧ (reqs = None → existing = "")
  ∧ text = Spec.combined_text existing pkgs
  ∧ Juv.append_packages existing [] = existing
  ∧ (∀ before p,
       let acc := Juv.append_packages existing before in
       (Text.occurs p acc = true →
        Juv.append_packages existing (before ++ [p]) = acc)
       ∧ (Text.occurs p acc = false →
          Juv.append_packages existing (before ++ [p])
          = acc +:+ p +:+ Text.NL))
  ∧ (∃ kept, kept `sublist_of` pkgs
             ∧ text = existing
                      +:+ Text.join "" (map (λ p, p +:+ Text.NL) kept)).
Proof.
  intros Hex out text. subst out.
  rewrite (CompileFacts.uv_pip_compile_readable _ _ _ _ _ _ _ _ Hex).
  repeat split.
  - intros ->. simpl in Hex. by injection Hex as <-.
  - apply CompileFacts.append_packages_fold.
  - rewrite CompileFacts.append_packages_snoc. by intros ->.
  - rewrite CompileFacts.append_packages_snoc. by intros ->.
  - apply CompileFacts.append_packages_lines.
Qed.

Lemma compile_stdin_textual_union_witness :
  let fs : gmap Path File :=
    {[ ["reqs.txt"] := TextFile ("requests>=2" +:+ Text.NL) ]} in
  Spec.existing_text (Some "reqs.txt") fs = Some ("requests>=2" +:+ Text.NL)
  ∧ w_trace (Juv.uv_pip_compile Demo.uv_bin Demo.toy_tool
               ["requests"; "numpy"] (Some "reqs.txt") true None
               (Demo.world fs)).2
    = [mkEvent ["uv"; "pip"; "compile"; "--no-deps"; "-"]
         (Some ("requests>=2" +:+ Text.NL +:+ "numpy" +:+ Text.NL))].
Proof.
  split; [reflexivity |].
  exact (proj1 (compile_stdin_textual_union Demo.uv_bin Demo.toy_tool
                  ["requests"; "numpy"] (Some "reqs.txt") true None
                  (Demo.world {[ ["reqs.txt"] := TextFile ("requests>=2" +:+ Text.NL) ]})
                  ("requests>=2" +:+ Text.NL) eq_refl)).
Defined.

(** C6.  Whatever the tool prints, the list [uv_pip_compile] returns is
    exactly the lines of that output which contain [==], in the order of
    the output; a line without [==] is dropped.  It returns that list
    whenever the requirements text was read and the tool exits with
    zero. *)
Theorem compile_output_keeps_pinned_lines
    (find_uv_bin : string)
    (tool : list string → option string → gmap Path File → Completed)
    (pkgs : list string) (reqs : option string) (nd : bool)
    (excl : option string) (w : World) :
  (∀ existing,
     Spec.existing_text reqs (w_fs w) = Some existing →
     let res := tool (Juv.pip_compile_argv find_uv_bin nd excl)
                  (Some (Juv.append_packages existing pkgs)) (w_fs w) in
     returncode res = 0%Z →
     (Juv.uv_pip_compile find_uv_bin tool pkgs reqs nd excl w).1
     = inr (filter (λ l, Text.occurs "==" l = true)
              (Text.split_nl (stdout res))))
  ∧ (∀ pinned w',
       Juv.uv_pip_compile find_uv_bin tool pkgs reqs nd excl w
       = (inr pinned, w') →
       ∃ ev, w_trace w' = w_trace w ++ [ev]
             ∧ let lines :=
                 Text.split_nl
                   (stdout (tool (ev_argv ev) (ev_stdin ev) (w_fs w))) in
               pinned = filter (λ l, Text.occurs "==" l = true) lines
               ∧ pinned `sublist_of` lines
               ∧ Forall (λ l, ∃ a b, l = a +:+ "==" +:+ b) pinned
               ∧ (∀ l, l ∈ lines → Text.occurs "==" l = true → l ∈ pinned)
               ∧ (∀ l, Text.occurs "==" l = false → l ∉ pinned)).
Proof.
  split.
  - intros existing Hex res Hrc.
    rewrite (CompileFacts.uv_pip_compile_readable _ _ _ _ _ _ _ _ Hex).
    fold res. rewrite Hrc. simpl.
    by rewrite CompileFacts.exact_versions_filter.
  - intros pinned w' Hrun.
    destruct (Spec.existing_text reqs (w_fs w)) as [existing|] eqn:Hex.
    + rewrite (CompileFacts.uv_pip_compile_readable _ _ _ _ _ _ _ _ Hex) in Hrun.
      destruct (returncode _ =? 0)%Z; [| done].
      injection Hrun as <- <-. eexists. split; [done |]. simpl.
      rewrite CompileFacts.exact_versions_filter.
      set (lines := Text.split_nl _). repeat split.
      * apply sublist_filter.
      * apply Forall_forall. intros l [Hl _]%list_elem_of_filter.
        exact (proj1 (TextFacts.occurs_spec "==" l) Hl).
      * intros l Hin Hl. by apply list_elem_of_filter.
      * intros l Hl [Hl' _]%list_elem_of_filter. congruence.
    + destruct (CompileFacts.uv_pip_compile_unreadable find_uv_bin tool
                  pkgs reqs nd excl w Hex) as (r & _ & [H|H]);
        rewrite H in Hrun; done.
Qed.

Lemma compile_output_keeps_pinned_lines_witness :
  (Juv.uv_pip_compile Demo.uv_bin Demo.toy_tool ["requests"; "numpy"] None
     true None (Demo.world ∅)).1
  = inr ["requests==2.31.0"; "numpy==2.31.0"].
Proof.
  exact (proj1 (compile_output_keeps_pinned_lines Demo.uv_bin Demo.toy_tool
                  ["requests"; "numpy"] None true None (Demo.world ∅))
           "" eq_refl eq_refl).
Defined.

(** C7, as the code has it.  Once the requirements file, when one is
    given, has been read, [uv_pip_compile] raises an error if and only if
    the subprocess exits with a non-zero code; the error is a
    [RuntimeError] whose message is the captured standard-error text as it
    is; on exit code zero nothing is raised and the pinned lines are
    returned. *)
Theorem compile_raises_iff_nonzero_exit
    (find_uv_bin : string)
    (tool : list string → option string → gmap Path File → Completed)
    (pkgs : list string) (reqs : option string) (nd : bool)
    (excl : option string) (w : World) (existing : string) :
  Spec.existing_text reqs (w_fs w) = Some existing →
  let res := tool (Juv.pip_compile_argv find_uv_bin nd excl)
               (Some (Juv.append_packages existing pkgs)) (w_fs w) in
  let out := Juv.uv_pip_compile find_uv_bin tool pkgs reqs nd excl w in
  Stated.raises_iff_nonzero_exit find_uv_bin tool pkgs reqs nd excl w
  ∧ ((∃ e, out.1 = inl e) ↔ returncode res ≠ 0%Z)
  ∧ (returncode res ≠ 0%Z → out.1 = inl (RuntimeError (stderr res)))
  ∧ (returncode res = 0%Z
     → out.1 = inr (Juv.exact_versions (Text.split_nl (stdout res)))).
Proof.
  intros Hex res out. unfold Stated.raises_iff_nonzero_exit. subst out.
  rewrite (CompileFacts.uv_pip_compile_readable _ _ _ _ _ _ _ _ Hex).
  fold res. destruct (Z.eqb_spec (returncode res) 0) as [Hz|Hnz]; simpl.
  - split; [| split; [| split]].
    + split.
      * by intros [e He].
      * intros (ev & Hev & Hrc). apply app_inj_tail in Hev as [_ <-]. done.
    + split; [by intros [e He] | done].
    + done.
    + done.
  - split; [| split; [| split]].
    + split.
      * intros _. eexists. split; [done |]. done.
      * intros _. by eexists.
    + split; [done | intros _; by eexists].
    + done.
    + done.
Qed.

Lemma compile_raises_iff_nonzero_exit_witness :
  Spec.existing_text None (w_fs (Demo.world ∅)) = Some ""
  ∧ (Juv.uv_pip_compile Demo.uv_bin Demo.failing_tool ["requests"] None
       true None (Demo.world ∅)).1
    = inl (RuntimeError "error: no solution").
Proof.
  split; [reflexivity |].
  apply (compile_raises_iff_nonzero_exit Demo.uv_bin Demo.failing_tool
           ["requests"] None true None (Demo.world ∅) "" eq_refl).
  discriminate.
Defined.

(** C7, as stated, fails: with a requirements file that does not exist,
    [uv_pip_compile] raises [FileNotFoundError] although no subprocess was
    run, let alone exited with a non-zero code (the stand-in tool would
    have exited with zero). *)
Lemma compile_raises_without_tool_exit :
  Juv.uv_pip_compile Demo.uv_bin Demo.toy_tool ["requests"]
    (Some "missing.txt") true None (Demo.world ∅)
  = (inl (FileNotFoundError ["missing.txt"]), Demo.world ∅)
  ∧ ¬ Stated.raises_iff_nonzero_exit Demo.uv_bin Demo.toy_tool ["requests"]
        (Some "missing.txt") true None (Demo.world ∅).
Proof.
  split; [reflexivity |].
  unfold Stated.raises_iff_nonzero_exit. intros [Hraise _].
  destruct Hraise as (ev & Hev & _); [by eexists |].
  vm_compute in Hev. discriminate Hev.
Qed.

(** * The object store: references to cells *)

Module StoreFacts.
Import Juv Store.

Lemma first_index_Some {T} (cb : T → bool) (items : list T) (i : nat) :
  first_index cb items = Some i ↔
  (∃ x, items !! i = Some x ∧ cb x = true)
  ∧ (∀ j y, j < i → items !! j = Some y → cb y = false).
Proof.
  revert i. induction items as [|x items IH]; intros i; simpl.
  - split; [done | by intros [(y & Hy & _) _]].
  - destruct (cb x) eqn:Hx.
    + split.
      * intros [= <-]. split; [by exists x | intros j y Hj; lia].
      * intros [_ Hmin]. destruct i as [|i]; [done |].
        specialize (Hmin 0 x ltac:(lia) eq_refl). congruence.
    + destruct (first_index cb items) as [k|]; simpl.
      * split.
        -- intros [= <-]. destruct (proj1 (IH k) eq_refl) as [Hat Hmin].
           split; [done |].
           intros [|j] y Hj Hy; simpl in Hy; [congruence |].
           apply (Hmin j); [lia | done].
        -- intros [(y & Hy & Hcb) Hmin]. destruct i as [|i].
           ++ simpl in Hy. congruence.
           ++ assert (Some k = Some i) as [= ->]; [| done].
              apply IH. split; [by exists y |].
              intros j z Hj Hz. apply (Hmin (S j)); [lia | done].
      * split; [done |]. intros [(y & Hy & Hcb) Hmin].
        destruct i as [|i]; simpl in Hy; [congruence |].
        assert (None = Some i) as Hi; [| done].
        apply IH. split; [by exists y |].
        intros j z Hj Hz. apply (Hmin (S j)); [lia | done].
Qed.

Lemma first_index_None {T} (cb : T → bool) (items : list T) :
  first_index cb items = None ↔ Forall (λ x, cb x = false) items.
Proof.
  induction items as [|x items IH]; simpl; [by split |].
  destruct (cb x) eqn:Hx.
  - split; [done |]. intros H. inversion H; congruence.
  - destruct (first_index cb items) eqn:Hk; simpl.
    + split; [done |]. intros H. inversion H as [|? ? _ Hrest]; subst.
      by apply IH in Hrest.
    + split; [| done]. intros _. constructor; [done | by apply IH].
Qed.

(** [find] over references sees the cells they stand for. *)
Lemma find_points_to (h : gmap nat Cell) (cb : Cell → bool)
    (ls : list nat) (cs : list Cell) :
  points_to h ls cs →
  find (λ l, from_option cb false (h !! l)) ls
  = i ← first_index cb cs; ls !! i.
Proof.
  induction 1 as [|l c ls cs Hl _ IH]; simpl; [done |].
  rewrite Hl. simpl. destruct (cb c); [done |].
  rewrite IH. by destruct (first_index cb cs).
Qed.

Lemma deref_points_to (h : gmap nat Cell) (ls : list nat) (cs : list Cell) :
  points_to h ls cs → deref h ls = cs.
Proof.
  unfold deref. induction 1 as [|l c ls cs Hl _ IH]; [done |].
  cbn [omap list_omap]. rewrite Hl. by f_equal.
Qed.

Lemma points_to_insert_fresh h ls cs l c :
  points_to h ls cs → h !! l = None → points_to (<[l := c]> h) ls cs.
Proof.
  intros Hp Hl. eapply Forall2_impl; [exact Hp |].
  intros l' c' Hl'. simpl in *. rewrite lookup_insert_ne; [done |].
  intros ->. congruence.
Qed.

Lemma points_to_alter_other h ls cs l (f : Cell → Cell) :
  points_to h ls cs → l ∉ ls → points_to (alter f l h) ls cs.
Proof.
  induction 1 as [|l' c' ls cs Hl' _ IH]; intros Hnotin; [constructor |].
  apply not_elem_of_cons in Hnotin as [Hne Hnotin].
  constructor; [by rewrite lookup_alter_ne | by apply IH].
Qed.

(** Mutating the object behind one reference changes the cell at the
    position of that reference and no other. *)
Lemma points_to_alter h ls cs i l c (f : Cell → Cell) :
  points_to h ls cs → NoDup ls →
  ls !! i = Some l → cs !! i = Some c →
  points_to (alter f l h) ls (<[i := f c]> cs).
Proof.
  intros Hp. revert i. induction Hp as [|l' c' ls cs Hl' Hp IH];
    intros i Hnd Hi Hc; [done |].
  apply NoDup_cons in Hnd as [Hnotin Hnd].
  destruct i as [|i]; simpl in *.
  - injection Hi as ->. injection Hc as ->.
    constructor; [by rewrite lookup_alter_eq, Hl' |].
    by apply points_to_alter_other.
  - constructor; [| by apply IH].
    rewrite lookup_alter_ne; [done |].
    intros ->. apply Hnotin. by eapply list_elem_of_lookup_2.
Qed.

(** Reading a notebook gives fresh, pairwise distinct objects that
    stand for the cells of the file, and leaves the objects that exist
    as they are. *)
Lemma alloc_cells_spec (cs : list Cell) (h : gmap nat Cell) ls h' :
  alloc_cells cs h = (ls, h') →
  points_to h' ls cs
  ∧ NoDup ls
  ∧ (∀ l, l ∈ ls → h !! l = None)
  ∧ (∀ l c, h !! l = Some c → h' !! l = Some c).
Proof.
  revert h ls h'. induction cs as [|c cs IH]; intros h ls h'; simpl.
  - intros [= <- <-]. repeat split; [constructor | constructor | | done].
    intros l Hl. by apply elem_of_nil in Hl.
  - destruct (alloc_cells cs (<[fresh (dom h) := c]> h)) as [ls0 h0] eqn:E.
    intros [= <- <-]. apply IH in E as (Hp & Hnd & Hfresh & Hkeep).
    assert (h !! fresh (dom h) = None) as Hnew
      by (apply not_elem_of_dom, is_fresh).
    repeat split.
    + constructor; [| done]. apply Hkeep. by rewrite lookup_insert_eq.
    + constructor; [| done]. intros Hin. apply Hfresh in Hin.
      by rewrite lookup_insert_eq in Hin.
    + intros l [->|Hin]%elem_of_cons; [done |].
      apply Hfresh in Hin. destruct (decide (l = fresh (dom h))) as [->|Hne].
      * by rewrite lookup_insert_eq in Hin.
      * by rewrite lookup_insert_ne in Hin.
    + intros l c' Hl. apply Hkeep. rewrite lookup_insert_ne; [done |].
      intros <-. congruence.
Qed.

End StoreFacts.

(** * Adding to a script and to a notebook *)

Module AddFacts.
Import Juv Store StoreFacts.

Lemma find_None {T} (cb : T → bool) (items : list T) :
  find cb items = None ↔ Forall (λ x, cb x = false) items.
Proof.
  induction items as [|x items IH]; simpl; [by split |].
  destruct (cb x) eqn:Hx.
  - split; [done |]. intros H. inversion H; congruence.
  - rewrite IH. split; [by constructor | by inversion 1].
Qed.

Lemma uv_script_args_template (script : Path) (kw : Kw) :
  uv_script_args script kw
  = Spec.template (to_str script) (Spec.nonempty_kw kw).
Proof.
  unfold uv_script_args, Spec.template, Spec.nonempty_kw, Spec.flag. simpl.
  destruct (requirements kw) as [[|? ?]|], (tag kw) as [[|? ?]|],
    (branch kw) as [[|? ?]|], (rev kw) as [[|? ?]|],
    (exclude_newer kw) as [[|? ?]|]; reflexivity.
Qed.

Section Oracles.
Variable find_uv_bin : string.
Variable tool : list string → option string → gmap Path File → Completed.
Variable includes_inline_metadata : string → bool.
Variable tmp_name : gmap Path File → Path → string → string.

Abbreviation uv_script := (Juv.uv_script find_uv_bin tool).
Abbreviation is_manifest := (Juv.is_manifest includes_inline_metadata).
Abbreviation locate_or_create :=
  (Juv.locate_or_create includes_inline_metadata).
Abbreviation add_notebook :=
  (Juv.add_notebook find_uv_bin tool includes_inline_metadata tmp_name).
Abbreviation add :=
  (Juv.add find_uv_bin tool includes_inline_metadata tmp_name).

(** One run of [uv_script]: one invocation, fatal when it exits with a
    non-zero code. *)
Lemma uv_script_run (script : Path) (kw : Kw) (w : World) :
  let argv := find_uv_bin :: uv_script_args script kw in
  let res := tool argv None (w_fs w) in
  uv_script script kw w
  = (if (returncode res =? 0)%Z then inr tt
     else inl (CalledProcessError (returncode res) argv),
     {| w_fs := fs_after res; w_heap := w_heap w;
        w_trace := w_trace w ++ [mkEvent argv None] |}).
Proof.
  unfold Juv.uv_script, uv, bind, subprocess_run. simpl.
  by destruct (returncode _ =? 0)%Z.
Qed.

Abbreviation manifest_slot := (Store.manifest_slot is_manifest).

Lemma locate_or_create_spec (nb : Notebook) (w : World) (cs : list Cell) :
  points_to (w_heap w) (nb_cells nb) cs → NoDup (nb_cells nb) →
  ∃ nb' l h' c,
    locate_or_create nb w = (inr (nb', l), with_heap w h')
    ∧ points_to h' (nb_cells nb') (manifest_slot cs).2
    ∧ NoDup (nb_cells nb')
    ∧ nb_cells nb' !! (manifest_slot cs).1 = Some l
    ∧ (manifest_slot cs).2 !! (manifest_slot cs).1 = Some c
    ∧ nb_metadata nb' = nb_metadata nb.
Proof.
  intros Hp Hnd. unfold Juv.locate_or_create, Store.manifest_slot.
  rewrite (find_points_to _ _ _ _ Hp).
  destruct (first_index is_manifest cs) as [i|] eqn:Hi; simpl.
  - apply first_index_Some in Hi as [(c & Hc & _) _].
    destruct (Forall2_lookup_r _ _ _ _ _ Hp Hc) as (l & Hl & Hlc).
    rewrite Hl. exists nb, l, (w_heap w), c.
    destruct w; done.
  - set (l := fresh (dom (w_heap w))).
    assert (w_heap w !! l = None) as Hnew
      by (apply not_elem_of_dom, is_fresh).
    eexists _, l, _, (code_cell "" true).
    split; [reflexivity |]. simpl. repeat split.
    + constructor; [by rewrite lookup_insert_eq |].
      by apply points_to_insert_fresh.
    + constructor; [| done]. intros Hin.
      apply list_elem_of_lookup in Hin as [j Hj].
      destruct (Forall2_lookup_l _ _ _ _ _ Hp Hj) as (c & _ & Hc).
      simpl in Hc. fold l in Hc. congruence.
Qed.

(** One run of [add_notebook] on a readable notebook, in closed form:
    what it returns, what it leaves on disk and what it ran. *)
Lemma add_notebook_run (path : Path) (kw : Kw) (w : World) (d : Document) :
  suffix path = ".ipynb" →
  w_fs w !! path = Some (NotebookFile d) →
  let slot := manifest_slot (doc_cells d) in
  let f := joinpath (parent path) (tmp_name (w_fs w) (parent path) ".py") in
  ∃ c h',
    slot.2 !! slot.1 = Some c
    ∧ let written := Text.strip (source c) in
      let argv := find_uv_bin :: uv_script_args f kw in
      let res := tool argv None (<[f := TextFile written]> (w_fs w)) in
      let text := Text.universal_newlines
                    match fs_after res !! f with
                    | Some (TextFile s) => s
                    | _ => written
                    end in
      let fs' := delete f (fs_after res) in
      let trace := w_trace w ++ [mkEvent argv None] in
      add_notebook path kw w
      = if (returncode res =? 0)%Z
        then match with_suffix path ".ipynb" with
             | inr target =>
                 (inr tt,
                  mkWorld
                    (<[target := NotebookFile
                         {| doc_cells :=
                              <[slot.1 := set_source c (Text.strip text)]>
                                slot.2;
                            doc_metadata := doc_metadata d |}]> fs')
                    h' trace)
             | inl e => (inl e, mkWorld fs' h' trace)
             end
        else (inl (CalledProcessError (returncode res) argv),
              mkWorld fs' h' trace).
Proof.
  intros Hs Hfile slot f.
  unfold Juv.add_notebook, bind at 1. unfold jupytext_read at 1.
  rewrite Hfile, (proj2 (String.eqb_eq _ _) Hs). cbn [negb].
  destruct (alloc_cells (doc_cells d) (w_heap w)) as [ls h1] eqn:Halloc.
  apply alloc_cells_spec in Halloc as (Hp & Hnd & _ & _).
  destruct (locate_or_create_spec
              {| nb_cells := ls; nb_metadata := doc_metadata d |}
              (with_heap w h1) (doc_cells d) Hp Hnd)
    as (nb' & l & h2 & c & Hloc & Hp2 & Hnd2 & Hl & Hc & Hmeta).
  fold slot in Hp2, Hl, Hc.
  unfold bind at 1. rewrite Hloc. simpl in Hmeta.
  assert (h2 !! l = Some c) as Hlc.
  { destruct (Forall2_lookup_l _ _ _ _ _ Hp2 Hl) as (c' & Hc' & Hlc).
    simpl in Hlc. congruence. }
  exists c.
  unfold bind at 1. unfold with_tempfile at 1.
  change (w_fs (with_heap (with_heap w h1) h2)) with (w_fs w). fold f.
  unfold bind at 1. unfold get_source at 1. simpl w_heap. rewrite Hlc.
  cbn [from_option].
  unfold bind at 1. unfold write_flush at 1.
  unfold bind at 1. rewrite uv_script_run. simpl w_fs.
  rewrite insert_insert_eq.
  set (argv := find_uv_bin :: uv_script_args f kw).
  set (res := tool argv None _).
  destruct (returncode res =? 0)%Z eqn:Hrc.
  - unfold bind at 1. unfold seek_read at 1. simpl w_fs.
    set (text := Text.universal_newlines
                   match fs_after res !! f with
                   | Some (TextFile s) => s
                   | _ => Text.strip (source c)
                   end).
    assert (match fs_after res !! f with
            | Some (TextFile s) =>
                (inr (Text.universal_newlines s),
                 {| w_fs := fs_after res; w_heap := h2;
                    w_trace := w_trace w ++ [mkEvent argv None] |})
            | _ => (inr (Text.universal_newlines (Text.strip (source c))),
                    {| w_fs := fs_after res; w_heap := h2;
                       w_trace := w_trace w ++ [mkEvent argv None] |})
            end
            = (inr text : exn + string,
               {| w_fs := fs_after res; w_heap := h2;
                  w_trace := w_trace w ++ [mkEvent argv None] |})) as Hread.
    { subst text. by destruct (fs_after res !! f) as [[?|?]|]. }
    simpl w_heap. simpl w_trace. rewrite Hread.
    unfold put_source, lift, write_ipynb. simpl.
    exists (alter (λ c0, set_source c0 (Text.strip text)) l h2).
    destruct (with_suffix path ".ipynb") as [e|target]; [done |].
    split; [done |]. unfold bind. simpl. unfold with_fs. simpl.
    rewrite (deref_points_to _ _ _
               (points_to_alter _ _ _ _ _ _ _ Hp2 Hnd2 Hl Hc)).
    by rewrite Hmeta.
  - exists h2. split; [done |]. done.
Qed.

(** [add] without pinning goes straight to the flow the extension
    selects. *)
Lemma add_unpinned (path : Path) (kw : Kw) (w : World) :
  add path kw false w
  = (if String.eqb (suffix path) ".ipynb" then add_notebook else uv_script)
      path kw w.
Proof. unfold Juv.add, bind, ret. by destruct kw. Qed.

(** [add] with pinning runs the compile step first and goes on with its
    pins and without the requirements file. *)
Lemma add_pinned (path : Path) (kw : Kw) (w : World) :
  add path kw true w
  = match Juv.uv_pip_compile find_uv_bin tool (packages kw) (requirements kw)
            true (exclude_newer kw) w with
    | (inr pinned, w1) =>
        (if String.eqb (suffix path) ".ipynb" then add_notebook else uv_script)
          path (Spec.pinned_kw kw pinned) w1
    | (inl e, w1) => (inl e, w1)
    end.
Proof.
  unfold Juv.add, bind, ret.
  by destruct (Juv.uv_pip_compile _ _ _ _ _ _ _) as [[e|pinned] w1].
Qed.

(** The same with the parts named as in [Flow]. *)
Lemma add_notebook_flow (path : Path) (kw : Kw) (w : World) (d : Document) :
  suffix path = ".ipynb" →
  w_fs w !! path = Some (NotebookFile d) →
  let res := Flow.script_result find_uv_bin tool includes_inline_metadata
               tmp_name path kw (w_fs w) d in
  let argv := Flow.script_argv find_uv_bin tmp_name path kw (w_fs w) in
  let left := Flow.files_left find_uv_bin tool includes_inline_metadata
                tmp_name path kw (w_fs w) d in
  let trace := w_trace w ++ [mkEvent argv None] in
  ∃ h',
    add_notebook path kw w
    = if (returncode res =? 0)%Z
      then match with_suffix path ".ipynb" with
           | inr target =>
               (inr tt,
                mkWorld
                  (<[target := NotebookFile
                       (Flow.rewritten find_uv_bin tool
                          includes_inline_metadata tmp_name path kw
                          (w_fs w) d)]> left)
                  h' trace)
           | inl e => (inl e, mkWorld left h' trace)
           end
      else (inl (CalledProcessError (returncode res) argv),
            mkWorld left h' trace).
Proof.
  intros Hs Hfile.
  destruct (add_notebook_run path kw w d Hs Hfile) as (c & h' & Hc & Hrun).
  exists h'. rewrite Hrun.
  unfold Flow.files_left, Flow.rewritten, Flow.new_source,
    Flow.script_result, Flow.script_argv, Flow.script_text, Flow.script_path,
    Store.manifest_cell.
  cbv zeta. rewrite Hc. cbn [default from_option id]. reflexivity.
Qed.



End Oracles.

End AddFacts.

(** ** Claims about the add step *)

(** C8, as the code has it.  The list [uv_script] hands to [uv] is the
    template
    [add [--requirements <file>] [--extra=<e>]* [--editable] [--tag=<t>]
     [--branch=<b>] [--rev=<r>] [--exclude-newer=<d>] --script <file>
     <pkg>...]
    in this order, where a parameter counts as supplied when it is neither
    [None] nor the empty string: a parameter that is omitted or empty adds
    no argument at all, and the script and the packages come last. *)
Theorem add_to_script_argv_template
    (find_uv_bin : string)
    (tool : list string → option string → gmap Path File → Completed)
    (script : Path) (kw : Juv.Kw) (w : World) :
  Juv.uv_script_args script kw
  = Spec.template (to_str script) (Spec.nonempty_kw kw)
  ∧ w_trace (Juv.uv_script find_uv_bin tool script kw w).2
    = w_trace w
      ++ [mkEvent
            (find_uv_bin :: Spec.template (to_str script) (Spec.nonempty_kw kw))
            None]
  ∧ (Spec.nonempty_kw kw = kw → Stated.argv_follows_template script kw).
Proof.
  split; [apply AddFacts.uv_script_args_template |]. split.
  - rewrite AddFacts.uv_script_run. simpl.
    by rewrite AddFacts.uv_script_args_template.
  - intros Hkw. unfold Stated.argv_follows_template.
    rewrite AddFacts.uv_script_args_template. by rewrite Hkw.
Qed.

(** C8, as stated, fails: a tag supplied as the empty string is dropped,
    where the template read with "supplied = not [None]" has [--tag=]. *)
Lemma empty_tag_is_dropped :
  let kw := {| Juv.packages := ["requests"]; Juv.requirements := None;
               Juv.extras := None; Juv.editable := false;
               Juv.branch := None; Juv.rev := None; Juv.tag := Some "";
               Juv.exclude_newer := None |} in
  Juv.uv_script_args ["script.py"] kw
  = ["add"; "--script"; "script.py"; "requests"]
  ∧ Spec.template "script.py" kw
    = ["add"; "--tag="; "--script"; "script.py"; "requests"]
  ∧ ¬ Stated.argv_follows_template ["script.py"] kw.
Proof.
  split; [reflexivity |]. split; [reflexivity |].
  unfold Stated.argv_follows_template. vm_compute. discriminate.
Qed.

(** C3.  When [pin] is set, what [add] passes onward is the list the
    compile step returned as packages and no requirements file; with
    packages [["requests"]] and no requirements file the compile step is
    fed the line [requests] and a newline, and the add-to-script call that
    follows gets the pinned list and no [--requirements]. *)
Theorem pin_replaces_packages_and_drops_requirements
    (find_uv_bin : string)
    (tool : list string → option string → gmap Path File → Completed)
    (includes_inline_metadata : string → bool)
    (tmp_name : gmap Path File → Path → string → string)
    (path : Path) (kw : Juv.Kw) (w w1 : World) (pinned : list string) :
  Juv.uv_pip_compile find_uv_bin tool (Juv.packages kw) (Juv.requirements kw)
    true (Juv.exclude_newer kw) w = (inr pinned, w1) →
  let onward := Spec.pinned_kw kw pinned in
  let add := Juv.add find_uv_bin tool includes_inline_metadata tmp_name in
  let add_notebook :=
    Juv.add_notebook find_uv_bin tool includes_inline_metadata tmp_name in
  let uv_script := Juv.uv_script find_uv_bin tool in
  Juv.packages onward = pinned
  ∧ Juv.requirements onward = None
  ∧ add path kw true w
    = (if String.eqb (suffix path) ".ipynb" then add_notebook else uv_script)
        path onward w1
  ∧ (String.eqb (suffix path) ".ipynb" = false →
     w_trace (add path kw true w).2
     = w_trace w1
       ++ [mkEvent (find_uv_bin :: Juv.uv_script_args path onward) None])
  ∧ (String.eqb (suffix path) ".ipynb" = true →
     ∀ d, w_fs w1 !! path = Some (NotebookFile d) →
       let f := joinpath (parent path)
                  (tmp_name (w_fs w1) (parent path) ".py") in
       w_trace (add path kw true w).2
       = w_trace w1
         ++ [mkEvent (find_uv_bin :: Juv.uv_script_args f onward) None])
  ∧ (∀ script,
       Juv.uv_script_args script onward
       = Spec.template (to_str script)
           (Spec.nonempty_kw (Spec.pinned_kw kw pinned))
       ∧ Juv.requirements (Spec.nonempty_kw (Spec.pinned_kw kw pinned)) = None)
  ∧ (Juv.packages kw = ["requests"] → Juv.requirements kw = None →
     w_trace w1
     = w_trace w
       ++ [mkEvent
             (Juv.pip_compile_argv find_uv_bin true (Juv.exclude_newer kw))
             (Some ("requests" +:+ Text.NL))]).
Proof.
  intros Hpin onward add add_notebook uv_script.
  assert (add path kw true w
          = (if String.eqb (suffix path) ".ipynb"
             then add_notebook else uv_script) path onward w1) as Hadd.
  { subst add. rewrite AddFacts.add_pinned. by rewrite Hpin. }
  split; [done |]. split; [done |]. split; [done |]. split; [| split; [| split]].
  - intros Hs. rewrite Hadd, Hs. subst uv_script.
    by rewrite AddFacts.uv_script_run.
  - intros Hs d Hd f. rewrite Hadd, Hs. subst add_notebook.
    destruct (AddFacts.add_notebook_run find_uv_bin tool
                includes_inline_metadata tmp_name path onward w1 d
                (proj1 (String.eqb_eq _ _) Hs) Hd)
      as (c & h' & _ & ->).
    fold f. destruct (returncode _ =? 0)%Z; [| done].
    by destruct (with_suffix path ".ipynb").
  - intros script. split; [apply AddFacts.uv_script_args_template | done].
  - intros Hpk Hreq. rewrite Hpk, Hreq in Hpin.
    rewrite (CompileFacts.uv_pip_compile_readable find_uv_bin tool
               ["requests"] None true (Juv.exclude_newer kw) w ""
               eq_refl) in Hpin.
    simpl in Hpin. by injection Hpin as _ <-.
Qed.

Lemma pin_replaces_packages_and_drops_requirements_witness :
  let fs : gmap Path File := {[ ["nb.ipynb"] := NotebookFile Demo.plain_doc ]} in
  let add := Juv.add Demo.uv_bin Demo.toy_tool Demo.has_marker Demo.toy_tmp in
  w_trace (add ["nb.ipynb"] (Demo.no_kw ["requests"]) true (Demo.world fs)).2
  = [mkEvent ["uv"; "pip"; "compile"; "--no-deps"; "-"]
       (Some ("requests" +:+ Text.NL));
     mkEvent ["uv"; "add"; "--script"; "tmpjuv.py"; "requests==2.31.0"] None].
Proof.
  pose proof
    (pin_replaces_packages_and_drops_requirements
       Demo.uv_bin Demo.toy_tool Demo.has_marker Demo.toy_tmp
       ["nb.ipynb"] (Demo.no_kw ["requests"])
       (Demo.world {[ ["nb.ipynb"] := NotebookFile Demo.plain_doc ]})
       (Juv.uv_pip_compile Demo.uv_bin Demo.toy_tool ["requests"] None true
          None (Demo.world {[ ["nb.ipynb"] := NotebookFile Demo.plain_doc ]})).2
       ["requests==2.31.0"] eq_refl) as (_ & _ & _ & _ & Hnb & _ & Hcompile).
  specialize (Hnb eq_refl Demo.plain_doc eq_refl).
  specialize (Hcompile eq_refl eq_refl).
  cbv zeta in Hnb |- *. rewrite Hnb, Hcompile. reflexivity.
Defined.




(** ** Claims about the notebook flow *)




(** C2.  When the notebook already holds a manifest cell, [add] changes
    the source of the first such cell and nothing else: the document
    written back has the same cells in the same order, each other cell as
    it was, the manifest cell with its type, metadata and hidden flag as
    they were, and the notebook's own metadata as it was.  The cell that
    the search returns is the object in the notebook's list itself, not a
    copy. *)
Theorem add_mutates_only_manifest_source
    (find_uv_bin : string)
    (tool : list string → option string → gmap Path File → Completed)
    (includes_inline_metadata : string → bool)
    (tmp_name : gmap Path File → Path → string → string)
    (path : Path) (kw kw1 : Juv.Kw) (pin : bool) (w w1 : World)
    (d : Document) (i : nat) (c : Cell) :
  Flow.pin_outcome find_uv_bin tool kw pin w kw1 w1 →
  suffix path = ".ipynb" →
  w_fs w1 !! path = Some (NotebookFile d) →
  Store.first_index (Juv.is_manifest includes_inline_metadata) (doc_cells d)
  = Some i →
  doc_cells d !! i = Some c →
  returncode (Flow.script_result find_uv_bin tool includes_inline_metadata
                tmp_name path kw1 (w_fs w1) d) = 0%Z →
  let s := Flow.new_source find_uv_bin tool includes_inline_metadata
             tmp_name path kw1 (w_fs w1) d in
  (∃ w' d',
     Juv.add find_uv_bin tool includes_inline_metadata tmp_name path kw pin w
     = (inr tt, w')
     ∧ w_fs w' !! path = Some (NotebookFile d')
     ∧ doc_cells d' = <[i := set_source c s]> (doc_cells d)
     ∧ doc_metadata d' = doc_metadata d
     ∧ length (doc_cells d') = length (doc_cells d)
     ∧ (∀ j, j ≠ i → doc_cells d' !! j = doc_cells d !! j)
     ∧ (∃ c', doc_cells d' !! i = Some c'
              ∧ source c' = s
              ∧ cell_type c' = cell_type c
              ∧ metadata c' = metadata c
              ∧ hidden c' = hidden c))
  ∧ (∀ nb w0,
       Store.points_to (w_heap w0) (nb_cells nb) (doc_cells d) →
       ∃ l, Juv.locate_or_create includes_inline_metadata nb w0
            = (inr (nb, l), w0)
            ∧ nb_cells nb !! i = Some l
            ∧ w_heap w0 !! l = Some c).
Proof.
  intros Hpin Hsuffix Hfile Hfirst Hc Hrc s. split.
  - assert (Juv.add find_uv_bin tool includes_inline_metadata tmp_name
              path kw pin w
            = Juv.add_notebook find_uv_bin tool includes_inline_metadata
                tmp_name path kw1 w1) as ->.
    { unfold Flow.pin_outcome in Hpin. destruct pin.
      - destruct Hpin as (pinned & Hcompile & ->).
        rewrite AddFacts.add_pinned, Hcompile.
        by rewrite (proj2 (String.eqb_eq _ _) Hsuffix).
      - destruct Hpin as [-> ->]. rewrite AddFacts.add_unpinned.
        by rewrite (proj2 (String.eqb_eq _ _) Hsuffix). }
    destruct (AddFacts.add_notebook_flow find_uv_bin tool
                includes_inline_metadata tmp_name path kw1 w1 d Hsuffix Hfile)
      as (h' & ->).
    rewrite Hrc, (PathFacts.with_suffix_same _ Hsuffix). simpl.
    eexists _, _. split; [done |]. simpl. rewrite lookup_insert_eq.
    split; [done |].
    unfold Flow.rewritten, Store.manifest_cell, Store.manifest_slot.
    rewrite Hfirst. simpl. rewrite Hc. simpl. fold s.
    split; [done |]. split; [done |]. split; [by rewrite length_insert |].
    split; [intros j Hj; by rewrite list_lookup_insert_ne |].
    exists (set_source c s). split; [| done].
    apply list_lookup_insert_eq. by eapply lookup_lt_Some.
  - intros nb w0 Hp. unfold Juv.locate_or_create.
    rewrite (StoreFacts.find_points_to _ _ _ _ Hp), Hfirst. simpl.
    destruct (Forall2_lookup_r _ _ _ _ _ Hp Hc) as (l & Hl & Hlc).
    rewrite Hl. by exists l.
Qed.

Lemma add_mutates_only_manifest_source_witness :
  ∃ w' d',
    Juv.add Demo.uv_bin Demo.toy_tool Demo.has_marker Demo.toy_tmp
      ["nb.ipynb"] (Demo.no_kw ["requests"]) false
      (Demo.world {[ ["nb.ipynb"] := NotebookFile Demo.manifest_doc ]})
    = (inr tt, w')
    ∧ w_fs w' !! ["nb.ipynb"] = Some (NotebookFile d')
    ∧ doc_cells d' !! 0 = Some (Demo.markdown "# Title")
    ∧ doc_cells d' !! 2 = Some (Juv.code_cell "print(1)" false)
    ∧ doc_metadata d' = {["kernelspec" := "python3"]}.
Proof.
  assert (w_fs (Demo.world {[ ["nb.ipynb"] := NotebookFile Demo.manifest_doc ]})
          !! ["nb.ipynb"] = Some (NotebookFile Demo.manifest_doc)) as Hfs
    by (vm_compute; reflexivity).
  assert (Store.first_index (Juv.is_manifest Demo.has_marker)
            (doc_cells Demo.manifest_doc) = Some 1) as Hfirst
    by (vm_compute; reflexivity).
  assert (returncode
            (Flow.script_result Demo.uv_bin Demo.toy_tool Demo.has_marker
               Demo.toy_tmp ["nb.ipynb"] (Demo.no_kw ["requests"])
               (w_fs (Demo.world
                        {[ ["nb.ipynb"] := NotebookFile Demo.manifest_doc ]}))
               Demo.manifest_doc) = 0%Z) as Hrc
    by (vm_compute; reflexivity).
  destruct (proj1 (add_mutates_only_manifest_source
              Demo.uv_bin Demo.toy_tool Demo.has_marker Demo.toy_tmp
              ["nb.ipynb"] (Demo.no_kw ["requests"]) (Demo.no_kw ["requests"])
              false
              (Demo.world {[ ["nb.ipynb"] := NotebookFile Demo.manifest_doc ]})
              (Demo.world {[ ["nb.ipynb"] := NotebookFile Demo.manifest_doc ]})
              Demo.manifest_doc 1
              {| cell_type := Code;
                 source := "# /// script" +:+ Text.NL +:+ "# dependencies = []"
                           +:+ Text.NL +:+ "# ///";
                 metadata := {["tags" := "setup"]}; hidden := true |}
              (conj eq_refl eq_refl) eq_refl Hfs Hfirst eq_refl Hrc))
    as (w' & d' & Hadd & Hfile & _ & Hmeta & _ & Hother & _).
  exists w', d'. split; [exact Hadd |]. split; [exact Hfile |].
  split; [exact (Hother 0 ltac:(discriminate)) |].
  split; [exact (Hother 2 ltac:(discriminate)) | exact Hmeta].
Defined.




(** * Creating a notebook: [init] *)

Module InitFacts.
Import Juv.

Lemma bind_inr {A B} (m : M A) (k : A → M B) (w w' : World) (b : B) :
  bind m k w = (inr b, w') →
  ∃ a w1, m w = (inr a, w1) ∧ k a w1 = (inr b, w').
Proof.
  unfold bind. destruct (m w) as [[e|a] w1]; [done |]. by exists a, w1.
Qed.

Lemma untitled_names_length : length Spec.untitled_names = 100.
Proof. reflexivity. Qed.

Lemma untitled_names_lookup (i : nat) :
  1 ≤ i ≤ 99 →
  Spec.untitled_names !! i
  = Some ("Untitled" +:+ Text.of_nat i +:+ ".ipynb").
Proof.
  intros Hi. unfold Spec.untitled_names.
  destruct i as [|i]; [lia |].
  change (("Untitled.ipynb" :: ?l) !! S i) with (l !! i).
  change (map ?f ?l) with (f <$> l).
  rewrite list_lookup_fmap, lookup_seq_lt by lia. done.
Qed.

(** A name that ends in [.ipynb] after some text has the notebook
    extension. *)
Lemma suffix_ipynb (directory : Path) (base : string) :
  Text.truthy base = true →
  suffix (joinpath directory (base +:+ ".ipynb")) = ".ipynb".
Proof.
  intros Hb. unfold suffix. rewrite PathFacts.name_joinpath.
  change (base +:+ ".ipynb") with (base +:+ String "." "ipynb").
  rewrite TextFacts.rpartition_last by done. by rewrite Hb.
Qed.

Lemma untitled_names_suffix (directory : Path) (n : string) :
  n ∈ Spec.untitled_names → suffix (joinpath directory n) = ".ipynb".
Proof.
  unfold Spec.untitled_names. intros [->|Hn]%elem_of_cons.
  - by apply (suffix_ipynb directory "Untitled").
  - change (map ?f ?l) with (f <$> l) in Hn.
    apply list_elem_of_fmap in Hn as (i & -> & _).
    rewrite <- TextFacts.app_assoc. by apply suffix_ipynb.
Qed.

Lemma find_elem_of {A} (f : A → bool) (l : list A) (x : A) :
  List.find f l = Some x → x ∈ l.
Proof.
  induction l as [|y l IH]; simpl; [done |].
  destruct (f y); [intros [= ->]; by left | intros H; right; by apply IH].
Qed.

Lemma first_free_all_taken (fs : gmap Path File) (directory : Path)
    (names : list string) :
  Forall (λ n, is_Some (fs !! joinpath directory n)) names →
  Spec.first_free fs directory names = None.
Proof.
  unfold Spec.first_free. induction 1 as [|n names Hn _ IH]; simpl; [done |].
  rewrite bool_decide_eq_false_2; [done |].
  destruct Hn as [file Hfile]. congruence.
Qed.

Section Oracles.
Variable find_uv_bin : string.
Variable tool : list string → option string → gmap Path File → Completed.
Variable includes_inline_metadata : string → bool.
Variable tmp_name : gmap Path File → Path → string → string.
Variable cwd : Path.

(** The loop finds the first free name of its range. *)
Lemma untitled_loop_spec (directory : Path) (range : list nat) (w : World) :
  untitled_loop directory range w
  = (match Spec.first_free (w_fs w) directory
             (map (λ i, "Untitled" +:+ Text.of_nat i +:+ ".ipynb") range) with
     | Some n => inr (joinpath directory n)
     | None => inl (ValueError "Could not find an available UntitledX.ipynb")
     end, w).
Proof.
  unfold Spec.first_free.
  induction range as [|i range IH]; [done |].
  cbn [untitled_loop map List.find]. unfold bind, exists_ at 1.
  set (candidate := joinpath directory _).
  destruct (w_fs w !! candidate) as [file|] eqn:E.
  - rewrite bool_decide_eq_true_2 by done.
    rewrite bool_decide_eq_false_2 by done. apply IH.
  - rewrite bool_decide_eq_false_2 by (by intros [? ?]).
    by rewrite bool_decide_eq_true_2.
Qed.

Lemma get_first_spec (directory : Path) (w : World) :
  get_first_non_conflicting_untitled_ipynb directory w
  = (match Spec.first_free (w_fs w) directory Spec.untitled_names with
     | Some n => inr (joinpath directory n)
     | None => inl (ValueError "Could not find an available UntitledX.ipynb")
     end, w).
Proof.
  unfold get_first_non_conflicting_untitled_ipynb, bind, exists_ at 1.
  unfold Spec.untitled_names, Spec.first_free. cbn [List.find].
  destruct (w_fs w !! joinpath directory "Untitled.ipynb") as [file|] eqn:E.
  - rewrite bool_decide_eq_true_2 by done.
    rewrite bool_decide_eq_false_2 by done. apply untitled_loop_spec.
  - rewrite bool_decide_eq_false_2 by (by intros [? ?]).
    by rewrite bool_decide_eq_true_2.
Qed.

(** [init] without a path returns, if it returns, the first free name. *)
Lemma init_returns_first_free (python : option string)
    (pkgs : list string) (w w' : World) (p : Path) :
  init find_uv_bin tool includes_inline_metadata tmp_name cwd None python
    pkgs w = (inr p, w') →
  ∃ n, Spec.first_free (w_fs w) cwd Spec.untitled_names = Some n
       ∧ p = joinpath cwd n.
Proof.
  unfold init. intros (path & w1 & Hpath & Hrest)%bind_inr.
  rewrite get_first_spec in Hpath.
  destruct (Spec.first_free (w_fs w) cwd Spec.untitled_names) as [n|];
    [| done].
  injection Hpath as <- <-. exists n. split; [done |].
  destruct (negb (String.eqb (suffix (joinpath cwd n)) ".ipynb")); [done |].
  apply bind_inr in Hrest as (nb & w2 & _ & Hrest).
  apply bind_inr in Hrest as (? & w3 & _ & Hrest).
  apply bind_inr in Hrest as (? & w4 & _ & Hrest).
  by injection Hrest as <- _.
Qed.

(** One run of [new_notebook_with_inline_metadata] when the tool
    succeeds: two fresh cells, the first with what the tool wrote. *)
Lemma new_notebook_run (directory : Path) (python : option string)
    (w : World) :
  let script := Flow.init_script tmp_name directory (w_fs w) in
  let argv := Flow.init_argv find_uv_bin tmp_name directory python (w_fs w) in
  let res := Flow.init_result find_uv_bin tool tmp_name directory python
               (w_fs w) in
  returncode res = 0%Z →
  ∃ c1 c2 h',
    new_notebook_with_inline_metadata find_uv_bin tool tmp_name directory
      python w
    = (inr (new_notebook [c1; c2]),
       mkWorld (delete script (fs_after res)) h'
         (w_trace w ++ [mkEvent argv None]))
    ∧ deref h' [c1; c2]
      = doc_cells (Flow.init_document find_uv_bin tool tmp_name directory
                     python (w_fs w)).
Proof.
  intros script argv res Hrc. subst res argv script.
  unfold Flow.init_document, Flow.init_result, Flow.init_argv,
    Flow.init_script in *.
  unfold new_notebook_with_inline_metadata, with_tempfile.
  unfold bind at 1. unfold uv at 1. unfold bind at 1.
  unfold subprocess_run at 1. cbn [w_fs with_fs w_heap w_trace].
  set (script := joinpath directory (tmp_name (w_fs w) directory ".py")) in *.
  set (argv := find_uv_bin :: _) in *.
  set (res := tool argv None _) in *.
  rewrite Hrc. cbn [Z.eqb negb andb].
  unfold ret at 1. unfold bind at 1. unfold seek_read at 1.
  cbn [w_fs with_fs w_heap w_trace].
  set (text := Text.universal_newlines
                 match fs_after res !! script with
                 | Some (TextFile s) => s
                 | _ => ""
                 end).
  assert (match fs_after res !! script with
          | Some (TextFile s) =>
              (inr (Text.universal_newlines s),
               {| w_fs := fs_after res; w_heap := w_heap w;
                  w_trace := w_trace w ++ [mkEvent argv None] |})
          | _ => (inr (Text.universal_newlines ""),
                  {| w_fs := fs_after res; w_heap := w_heap w;
                     w_trace := w_trace w ++ [mkEvent argv None] |})
          end
          = (inr text : exn + string,
             {| w_fs := fs_after res; w_heap := w_heap w;
                w_trace := w_trace w ++ [mkEvent argv None] |})) as ->.
  { subst text. by destruct (fs_after res !! script) as [[?|?]|]. }
  unfold bind, alloc, ret. cbn [w_fs with_fs w_heap w_trace with_heap].
  set (c1 := fresh (dom (w_heap w))).
  set (h1 := <[c1 := code_cell (Text.strip text) true]> (w_heap w)).
  set (c2 := fresh (dom h1)).
  exists c1, c2, (<[c2 := code_cell "" false]> h1).
  split; [reflexivity |].
  assert (c1 ≠ c2) as Hne.
  { intros Heq. apply (is_fresh (dom h1)). fold c2. rewrite <- Heq.
    subst h1. rewrite dom_insert_L. set_solver. }
  unfold deref. cbn [omap list_omap].
  rewrite lookup_insert_ne by (by apply not_eq_sym).
  subst h1. rewrite !lookup_insert_eq. reflexivity.
Qed.

(** [init] without a path and without packages, when a name is free and
    the tool succeeds: the notebook is written under the first free name,
    which is returned. *)
Lemma init_run (python : option string) (w : World) (n : string) :
  Spec.first_free (w_fs w) cwd Spec.untitled_names = Some n →
  returncode (Flow.init_result find_uv_bin tool tmp_name cwd python (w_fs w))
  = 0%Z →
  ∃ w',
    init find_uv_bin tool includes_inline_metadata tmp_name cwd None python
      [] w = (inr (joinpath cwd n), w')
    ∧ w_fs w' !! joinpath cwd n
      = Some (NotebookFile
                (Flow.init_document find_uv_bin tool tmp_name cwd python
                   (w_fs w)))
    ∧ w_trace w'
      = w_trace w
        ++ [mkEvent (Flow.init_argv find_uv_bin tmp_name cwd python (w_fs w))
              None].
Proof.
  intros Hfree Hrc. unfold init, bind at 1. rewrite get_first_spec, Hfree.
  rewrite (proj2 (String.eqb_eq _ _) (untitled_names_suffix cwd n
             (find_elem_of _ _ _ Hfree))).
  cbn [negb]. rewrite PathFacts.parent_joinpath.
  destruct (new_notebook_run cwd python w Hrc)
    as (c1 & c2 & h' & Hnew & Hcells).
  unfold bind at 1. rewrite Hnew.
  unfold bind, write_ipynb, ret. cbn [length Nat.ltb Nat.leb].
  cbn [w_fs with_fs w_heap w_trace new_notebook nb_cells nb_metadata].
  eexists. split; [reflexivity |]. cbn [w_fs w_trace]. split; [| done].
  unfold with_fs. cbn [w_fs]. rewrite lookup_insert_eq, Hcells. reflexivity.
Qed.

End Oracles.

End InitFacts.

(** ** Claims about [init] *)

(** C9.  Without a path, [init] takes the first of the hundred names
    [Untitled.ipynb], [Untitled1.ipynb], ..., [Untitled99.ipynb] that does
    not exist in the current directory: [Untitled.ipynb] when that is
    free, [Untitled1.ipynb] when only [Untitled.ipynb] is taken; when all
    hundred are taken it raises [ValueError] at once, having run and
    written nothing. *)
Theorem init_picks_first_free_untitled_name
    (find_uv_bin : string)
    (tool : list string → option string → gmap Path File → Completed)
    (includes_inline_metadata : string → bool)
    (tmp_name : gmap Path File → Path → string → string)
    (cwd : Path) (python : option string) (pkgs : list string) (w : World) :
  let init :=
    Juv.init find_uv_bin tool includes_inline_metadata tmp_name cwd None
      python in
  let get_first := Juv.get_first_non_conflicting_untitled_ipynb cwd in
  let failure := ValueError "Could not find an available UntitledX.ipynb" in
  length Spec.untitled_names = 100
  ∧ Spec.untitled_names !! 0 = Some "Untitled.ipynb"
  ∧ (∀ i, 1 ≤ i ≤ 99 →
       Spec.untitled_names !! i
       = Some ("Untitled" +:+ Text.of_nat i +:+ ".ipynb"))
  ∧ get_first w
    = (match Spec.first_free (w_fs w) cwd Spec.untitled_names with
       | Some n => inr (joinpath cwd n)
       | None => inl failure
       end, w)
  ∧ (w_fs w !! joinpath cwd "Untitled.ipynb" = None →
     get_first w = (inr (joinpath cwd "Untitled.ipynb"), w))
  ∧ (is_Some (w_fs w !! joinpath cwd "Untitled.ipynb") →
     w_fs w !! joinpath cwd "Untitled1.ipynb" = None →
     get_first w = (inr (joinpath cwd "Untitled1.ipynb"), w))
  ∧ (Forall (λ n, is_Some (w_fs w !! joinpath cwd n)) Spec.untitled_names →
     get_first w = (inl failure, w) ∧ init pkgs w = (inl failure, w))
  ∧ (∀ p w', init pkgs w = (inr p, w') →
       ∃ n, Spec.first_free (w_fs w) cwd Spec.untitled_names = Some n
            ∧ p = joinpath cwd n)
  ∧ (∀ n, Spec.first_free (w_fs w) cwd Spec.untitled_names = Some n →
       returncode (Flow.init_result find_uv_bin tool tmp_name cwd python
                     (w_fs w)) = 0%Z →
       ∃ w', init [] w = (inr (joinpath cwd n), w')
             ∧ is_Some (w_fs w' !! joinpath cwd n)).
Proof.
  intros init get_first failure.
  pose proof (InitFacts.get_first_spec cwd w) as Hfirst. fold get_first in Hfirst.
  split; [apply InitFacts.untitled_names_length |].
  split; [reflexivity |].
  split; [apply InitFacts.untitled_names_lookup |].
  split; [exact Hfirst |].
  split; [| split; [| split; [| split]]].
  - intros Hfree. rewrite Hfirst.
    unfold Spec.first_free, Spec.untitled_names. cbn [List.find].
    by rewrite bool_decide_eq_true_2.
  - intros Htaken Hfree. rewrite Hfirst.
    unfold Spec.first_free, Spec.untitled_names.
    change (seq 1 99) with (1 :: seq 2 98). cbn [List.find map].
    rewrite bool_decide_eq_false_2
      by (destruct Htaken as [file Hfile]; congruence).
    change ("Untitled" +:+ Text.of_nat 1 +:+ ".ipynb") with "Untitled1.ipynb".
    by rewrite bool_decide_eq_true_2.
  - intros Hall. apply InitFacts.first_free_all_taken in Hall.
    rewrite Hfirst, Hall. split; [done |].
    subst init. unfold Juv.init, bind at 1. fold get_first.
    by rewrite Hfirst, Hall.
  - intros p w' Hinit. by eapply InitFacts.init_returns_first_free.
  - intros n Hfree Hrc.
    destruct (InitFacts.init_run find_uv_bin tool includes_inline_metadata
                tmp_name cwd python w n Hfree Hrc) as (w' & Hinit & Hfile & _).
    exists w'. split; [done |]. by rewrite Hfile.
Qed.

Lemma init_picks_first_free_untitled_name_witness :
  ∃ w',
    Juv.init Demo.uv_bin Demo.toy_tool Demo.has_marker Demo.toy_tmp ["home"]
      None None []
      (Demo.world {[ ["home"; "Untitled.ipynb"] := TextFile "taken" ]})
    = (inr ["home"; "Untitled1.ipynb"], w')
    ∧ is_Some (w_fs w' !! ["home"; "Untitled1.ipynb"]).
Proof.
  exact (proj2 (proj2 (proj2 (proj2 (proj2 (proj2 (proj2 (proj2
           (init_picks_first_free_untitled_name
              Demo.uv_bin Demo.toy_tool Demo.has_marker Demo.toy_tmp ["home"]
              None []
              (Demo.world {[ ["home"; "Untitled.ipynb"] := TextFile "taken" ]})
           ))))))))
           "Untitled1.ipynb" eq_refl eq_refl).
Defined.

(** Run twice in a directory that is empty at first, [init] makes
    [Untitled.ipynb] and then [Untitled1.ipynb]. *)
Example init_twice_in_empty_directory :
  let init := Juv.init Demo.uv_bin Demo.toy_tool Demo.has_marker Demo.toy_tmp
                ["home"] None None [] in
  let first := init (Demo.world ∅) in
  let second := init first.2 in
  first.1 = inr ["home"; "Untitled.ipynb"]
  ∧ second.1 = inr ["home"; "Untitled1.ipynb"]
  ∧ map fst (map_to_list (w_fs second.2))
    = [["home"; "Untitled.ipynb"]; ["home"; "Untitled1.ipynb"]].
Proof.
  cbv zeta. split; [vm_compute; reflexivity |].
  split; vm_compute; reflexivity.
Qed.

(** * Further properties of the two operations *)

(** [add] on a path without the notebook extension runs the tool on that
    path as a script and does nothing else: no cell object is made and the
    files are as the tool left them. *)
Theorem add_on_script_path_is_one_tool_run
    (find_uv_bin : string)
    (tool : list string → option string → gmap Path File → Completed)
    (includes_inline_metadata : string → bool)
    (tmp_name : gmap Path File → Path → string → string)
    (path : Path) (kw : Juv.Kw) (w : World) :
  String.eqb (suffix path) ".ipynb" = false →
  let argv := find_uv_bin :: Juv.uv_script_args path kw in
  let res := tool argv None (w_fs w) in
  Juv.add find_uv_bin tool includes_inline_metadata tmp_name path kw false w
  = (if (returncode res =? 0)%Z then inr tt
     else inl (CalledProcessError (returncode res) argv),
     {| w_fs := fs_after res; w_heap := w_heap w;
        w_trace := w_trace w ++ [mkEvent argv None] |}).
Proof.
  intros Hs argv res. rewrite AddFacts.add_unpinned, Hs.
  apply AddFacts.uv_script_run.
Qed.

Lemma add_on_script_path_is_one_tool_run_witness :
  Juv.add Demo.uv_bin Demo.toy_tool Demo.has_marker Demo.toy_tmp
    ["script.py"] (Demo.no_kw ["requests"]) false
    (Demo.world {[ ["script.py"] := TextFile "print(1)" ]})
  = (inr tt,
     {| w_fs := {[ ["script.py"] :=
                     TextFile (Demo.block ["requests"] +:+ "print(1)") ]};
        w_heap := ∅;
        w_trace :=
          [mkEvent ["uv"; "add"; "--script"; "script.py"; "requests"] None] |}).
Proof.
  rewrite (add_on_script_path_is_one_tool_run Demo.uv_bin Demo.toy_tool
             Demo.has_marker Demo.toy_tmp ["script.py"]
             (Demo.no_kw ["requests"])
             (Demo.world {[ ["script.py"] := TextFile "print(1)" ]}) eq_refl).
  vm_compute. reflexivity.
Defined.



(** The temporary script does not outlive [add_notebook] on a notebook
    with the notebook extension: whether the tool succeeds or fails, no
    file is left under its name, unless that name is the very path the
    notebook is written to. *)
Theorem temporary_script_is_removed
    (find_uv_bin : string)
    (tool : list string → option string → gmap Path File → Completed)
    (includes_inline_metadata : string → bool)
    (tmp_name : gmap Path File → Path → string → string)
    (path : Path) (kw : Juv.Kw) (w : World) (d : Document) :
  suffix path = ".ipynb" →
  w_fs w !! path = Some (NotebookFile d) →
  with_suffix path ".ipynb" ≠ inr (Flow.script_path tmp_name path (w_fs w)) →
  w_fs (Juv.add_notebook find_uv_bin tool includes_inline_metadata tmp_name
          path kw w).2
  !! Flow.script_path tmp_name path (w_fs w) = None.
Proof.
  intros Hs Hfile Hother.
  destruct (AddFacts.add_notebook_flow find_uv_bin tool
              includes_inline_metadata tmp_name path kw w d Hs Hfile)
    as (h' & ->).
  unfold Flow.files_left.
  destruct (returncode _ =? 0)%Z; simpl; [| by rewrite lookup_delete_eq].
  destruct (with_suffix path ".ipynb") as [e|target] eqn:E; simpl.
  - by rewrite lookup_delete_eq.
  - rewrite lookup_insert_ne by congruence. by rewrite lookup_delete_eq.
Qed.

Lemma temporary_script_is_removed_witness :
  w_fs (Juv.add_notebook Demo.uv_bin Demo.toy_tool Demo.has_marker
          Demo.toy_tmp ["nb.ipynb"] (Demo.no_kw ["requests"])
          (Demo.world {[ ["nb.ipynb"] := NotebookFile Demo.plain_doc ]})).2
  !! ["tmpjuv.py"] = None.
Proof.
  assert (w_fs (Demo.world {[ ["nb.ipynb"] := NotebookFile Demo.plain_doc ]})
          !! ["nb.ipynb"] = Some (NotebookFile Demo.plain_doc)) as Hfile
    by (vm_compute; reflexivity).
  apply (temporary_script_is_removed Demo.uv_bin Demo.toy_tool
           Demo.has_marker Demo.toy_tmp ["nb.ipynb"] (Demo.no_kw ["requests"])
           (Demo.world {[ ["nb.ipynb"] := NotebookFile Demo.plain_doc ]})
           Demo.plain_doc eq_refl Hfile).
  vm_compute. discriminate.
Defined.

(** When the tool fails, [add_notebook] on a notebook with the notebook
    extension raises [CalledProcessError] and writes no notebook: the
    files are as the tool left them, less the temporary script. *)
Theorem tool_failure_writes_no_notebook
    (find_uv_bin : string)
    (tool : list string → option string → gmap Path File → Completed)
    (includes_inline_metadata : string → bool)
    (tmp_name : gmap Path File → Path → string → string)
    (path : Path) (kw : Juv.Kw) (w : World) (d : Document) :
  suffix path = ".ipynb" →
  w_fs w !! path = Some (NotebookFile d) →
  let res := Flow.script_result find_uv_bin tool includes_inline_metadata
               tmp_name path kw (w_fs w) d in
  returncode res ≠ 0%Z →
  let out := Juv.add_notebook find_uv_bin tool includes_inline_metadata
               tmp_name path kw w in
  out.1 = inl (CalledProcessError (returncode res)
                 (Flow.script_argv find_uv_bin tmp_name path kw (w_fs w)))
  ∧ w_fs out.2
    = delete (Flow.script_path tmp_name path (w_fs w)) (fs_after res).
Proof.
  intros Hs Hfile res Hrc out. subst out.
  destruct (AddFacts.add_notebook_flow find_uv_bin tool
              includes_inline_metadata tmp_name path kw w d Hs Hfile)
    as (h' & ->).
  fold res. by rewrite (proj2 (Z.eqb_neq _ _) Hrc).
Qed.

Lemma tool_failure_writes_no_notebook_witness :
  let fs : gmap Path File := {[ ["nb.ipynb"] := NotebookFile Demo.plain_doc ]} in
  w_fs (Juv.add_notebook Demo.uv_bin Demo.failing_tool Demo.has_marker
          Demo.toy_tmp ["nb.ipynb"] (Demo.no_kw ["requests"])
          (Demo.world fs)).2
  = fs.
Proof.
  cbv zeta.
  assert (w_fs (Demo.world {[ ["nb.ipynb"] := NotebookFile Demo.plain_doc ]})
          !! ["nb.ipynb"] = Some (NotebookFile Demo.plain_doc)) as Hfile
    by (vm_compute; reflexivity).
  rewrite (proj2 (tool_failure_writes_no_notebook Demo.uv_bin
                    Demo.failing_tool Demo.has_marker Demo.toy_tmp
                    ["nb.ipynb"] (Demo.no_kw ["requests"])
                    (Demo.world {[ ["nb.ipynb"] := NotebookFile Demo.plain_doc ]})
                    Demo.plain_doc eq_refl Hfile ltac:(discriminate))).
  vm_compute. reflexivity.
Defined.

(** [init] refuses a supplied path without the notebook extension: it
    exits with code 1 before anything is run or written. *)
Theorem init_rejects_other_extension
    (find_uv_bin : string)
    (tool : list string → option string → gmap Path File → Completed)
    (includes_inline_metadata : string → bool)
    (tmp_name : gmap Path File → Path → string → string)
    (cwd path : Path) (python : option string) (pkgs : list string)
    (w : World) :
  suffix path ≠ ".ipynb" →
  Juv.init find_uv_bin tool includes_inline_metadata tmp_name cwd (Some path)
    python pkgs w
  = (inl (SystemExit 1), w).
Proof.
  intros Hs. unfold Juv.init, bind, ret.
  by rewrite (proj2 (String.eqb_neq _ _) Hs).
Qed.

Lemma init_rejects_other_extension_witness :
  Juv.init Demo.uv_bin Demo.toy_tool Demo.has_marker Demo.toy_tmp ["home"]
    (Some ["home"; "notes.txt"]) None [] (Demo.world ∅)
  = (inl (SystemExit 1), Demo.world ∅).
Proof.
  apply (init_rejects_other_extension Demo.uv_bin Demo.toy_tool
           Demo.has_marker Demo.toy_tmp ["home"] ["home"; "notes.txt"]
           None [] (Demo.world ∅)).
  vm_compute. discriminate.
Defined.

(** The notebook [init] writes has exactly two code cells: a hidden one
    whose source is the text the tool left in the temporary script, read
    back and trimmed, and an empty visible one. *)
Theorem init_writes_two_code_cells
    (find_uv_bin : string)
    (tool : list string → option string → gmap Path File → Completed)
    (includes_inline_metadata : string → bool)
    (tmp_name : gmap Path File → Path → string → string)
    (cwd : Path) (python : option string) (w : World) (n : string) :
  Spec.first_free (w_fs w) cwd Spec.untitled_names = Some n →
  let res := Flow.init_result find_uv_bin tool tmp_name cwd python (w_fs w) in
  returncode res = 0%Z →
  let text := match fs_after res !! Flow.init_script tmp_name cwd (w_fs w) with
              | Some (TextFile s) => s
              | _ => ""
              end in
  ∃ w',
    Juv.init find_uv_bin tool includes_inline_metadata tmp_name cwd None
      python [] w = (inr (joinpath cwd n), w')
    ∧ w_fs w' !! joinpath cwd n
      = Some (NotebookFile
                {| doc_cells :=
                     [mkCell Code (Text.strip (Text.universal_newlines text))
                        ∅ true;
                      mkCell Code "" ∅ false];
                   doc_metadata := ∅ |})
    ∧ w_trace w'
      = w_trace w
        ++ [mkEvent (Flow.init_argv find_uv_bin tmp_name cwd python (w_fs w))
              None].
Proof.
  intros Hfree res Hrc text.
  destruct (InitFacts.init_run find_uv_bin tool includes_inline_metadata
              tmp_name cwd python w n Hfree Hrc) as (w' & Hinit & Hfile & Htr).
  exists w'. split; [exact Hinit |]. split; [| exact Htr].
  rewrite Hfile. reflexivity.
Qed.

Lemma init_writes_two_code_cells_witness :
  ∃ w',
    Juv.init Demo.uv_bin Demo.toy_tool Demo.has_marker Demo.toy_tmp ["home"]
      None None [] (Demo.world ∅)
    = (inr ["home"; "Untitled.ipynb"], w')
    ∧ w_fs w' !! ["home"; "Untitled.ipynb"]
      = Some (NotebookFile
                {| doc_cells :=
                     [mkCell Code
                        ("# /// script" +:+ Text.NL +:+ "# dependencies = []"
                         +:+ Text.NL +:+ "# ///")
                        ∅ true;
                      mkCell Code "" ∅ false];
                   doc_metadata := ∅ |}).
Proof.
  assert (Spec.first_free (w_fs (Demo.world ∅)) ["home"] Spec.untitled_names
          = Some "Untitled.ipynb") as Hfree
    by (vm_compute; reflexivity).
  assert (returncode (Flow.init_result Demo.uv_bin Demo.toy_tool Demo.toy_tmp
                        ["home"] None (w_fs (Demo.world ∅))) = 0%Z) as Hrc
    by (vm_compute; reflexivity).
  destruct (init_writes_two_code_cells Demo.uv_bin Demo.toy_tool
              Demo.has_marker Demo.toy_tmp ["home"] None (Demo.world ∅)
              "Untitled.ipynb" Hfree Hrc)
    as (w' & Hinit & Hfile & _).
  exists w'. split; [exact Hinit |].
  etransitivity; [exact Hfile |]. vm_compute. reflexivity.
Defined.

(** * Further properties: searching, the textual union, the pin step *)

Module MoreFacts.
Import Juv.

Lemma occurs_app_l (p t x : string) :
  Text.occurs p t = true → Text.occurs p (t +:+ x) = true.
Proof.
  intros (l & r & ->)%TextFacts.occurs_spec. apply TextFacts.occurs_spec.
  exists l, (r +:+ x). by rewrite !TextFacts.app_assoc.
Qed.

Lemma occurs_own_line (p t : string) :
  Text.occurs p (t +:+ p +:+ Text.NL) = true.
Proof. apply TextFacts.occurs_spec. by exists t, Text.NL. Qed.

(** What occurs in the text still occurs after the loop. *)
Lemma occurs_append_packages (p t : string) (pkgs : list string) :
  Text.occurs p t = true → Text.occurs p (append_packages t pkgs) = true.
Proof.
  intros Hp. destruct (CompileFacts.append_packages_lines t pkgs)
    as (kept & _ & ->).
  by apply occurs_app_l.
Qed.

Lemma append_packages_all_occur (t : string) (pkgs : list string) :
  Forall (λ p, Text.occurs p (append_packages t pkgs) = true) pkgs.
Proof.
  revert t. induction pkgs as [|p pkgs IH]; intros t; [constructor |].
  cbn [append_packages]. constructor; [| apply IH].
  apply occurs_append_packages.
  destruct (Text.occurs p t) eqn:E; cbn [negb]; [done |].
  apply occurs_own_line.
Qed.

Lemma append_packages_present (t : string) (pkgs : list string) :
  Forall (λ p, Text.occurs p t = true) pkgs → append_packages t pkgs = t.
Proof.
  induction 1 as [|p pkgs Hp _ IH]; [done |].
  cbn [append_packages]. by rewrite Hp.
Qed.

End MoreFacts.


(** The textual union of [uv_pip_compile] is idempotent: after the loop
    every requested package occurs in the text, so running the loop again
    over its own result, with the same packages in any order and number,
    adds nothing; and when every package already occurs in the
    requirements text the tool is fed that text as it is. *)
Theorem textual_union_is_idempotent
    (find_uv_bin : string)
    (tool : list string → option string → gmap Path File → Completed)
    (existing : string) (pkgs : list string) :
  let text := Juv.append_packages existing pkgs in
  Forall (λ p, Text.occurs p text = true) pkgs
  ∧ (∀ again, again ⊆ pkgs → Juv.append_packages text again = text)
  ∧ Juv.append_packages existing (pkgs ++ pkgs) = text
  ∧ (Forall (λ p, Text.occurs p existing = true) pkgs → text = existing)
  ∧ (∀ reqs nd excl w,
       Spec.existing_text reqs (w_fs w) = Some existing →
       Forall (λ p, Text.occurs p existing = true) pkgs →
       w_trace (Juv.uv_pip_compile find_uv_bin tool pkgs reqs nd excl w).2
       = w_trace w
         ++ [mkEvent (Juv.pip_compile_argv find_uv_bin nd excl)
               (Some existing)]).
Proof.
  intros text.
  pose proof (MoreFacts.append_packages_all_occur existing pkgs) as Hall.
  fold text in Hall.
  split; [done |]. split; [| split; [| split]].
  - intros again Hsub. apply MoreFacts.append_packages_present.
    apply Forall_forall. intros p Hp.
    by apply (proj1 (Forall_forall _ _) Hall), Hsub.
  - rewrite CompileFacts.append_packages_app.
    by apply MoreFacts.append_packages_present.
  - apply MoreFacts.append_packages_present.
  - intros reqs nd excl w Hex Hpresent.
    rewrite (CompileFacts.uv_pip_compile_readable find_uv_bin tool pkgs reqs
               nd excl w existing Hex).
    simpl. by rewrite (MoreFacts.append_packages_present _ _ Hpresent).
Qed.

(** * Further properties of [add] *)

(** A pin-enabled [add] whose requirements file does not exist raises
    [FileNotFoundError] at once: no subprocess is run, no notebook is read
    and nothing is written. *)
Theorem pin_with_missing_requirements_runs_nothing
    (find_uv_bin : string)
    (tool : list string → option string → gmap Path File → Completed)
    (includes_inline_metadata : string → bool)
    (tmp_name : gmap Path File → Path → string → string)
    (path : Path) (kw : Juv.Kw) (w : World) (r : string) :
  Juv.requirements kw = Some r →
  w_fs w !! of_str r = None →
  Juv.add find_uv_bin tool includes_inline_metadata tmp_name path kw true w
  = (inl (FileNotFoundError (of_str r)), w).
Proof.
  intros Hreq Hmissing. rewrite AddFacts.add_pinned, Hreq.
  unfold Juv.uv_pip_compile, bind, read_text. by rewrite Hmissing.
Qed.

Lemma pin_with_missing_requirements_runs_nothing_witness :
  Juv.add Demo.uv_bin Demo.toy_tool Demo.has_marker Demo.toy_tmp
    ["nb.ipynb"] Samples.reqs_kw
    true (Demo.world {[ ["nb.ipynb"] := NotebookFile Demo.plain_doc ]})
  = (inl (FileNotFoundError ["reqs.txt"]),
     Demo.world {[ ["nb.ipynb"] := NotebookFile Demo.plain_doc ]}).
Proof.
  assert (w_fs (Demo.world {[ ["nb.ipynb"] := NotebookFile Demo.plain_doc ]})
          !! of_str "reqs.txt" = None) as Hmissing
    by (vm_compute; reflexivity).
  exact (pin_with_missing_requirements_runs_nothing Demo.uv_bin
           Demo.toy_tool Demo.has_marker Demo.toy_tmp ["nb.ipynb"]
           Samples.reqs_kw
           (Demo.world {[ ["nb.ipynb"] := NotebookFile Demo.plain_doc ]})
           "reqs.txt" eq_refl Hmissing).
Defined.

(** When the compile step fails, a pin-enabled [add] stops there: it
    raises [RuntimeError] with the tool's standard-error text, the compile
    command is the only subprocess run, and neither flow is entered (no
    cell object is made, no notebook written). *)
Theorem failed_pin_stops_add
    (find_uv_bin : string)
    (tool : list string → option string → gmap Path File → Completed)
    (includes_inline_metadata : string → bool)
    (tmp_name : gmap Path File → Path → string → string)
    (path : Path) (kw : Juv.Kw) (w : World) (existing : string) :
  Spec.existing_text (Juv.requirements kw) (w_fs w) = Some existing →
  let argv := Juv.pip_compile_argv find_uv_bin true (Juv.exclude_newer kw) in
  let text := Juv.append_packages existing (Juv.packages kw) in
  let res := tool argv (Some text) (w_fs w) in
  returncode res ≠ 0%Z →
  Juv.add find_uv_bin tool includes_inline_metadata tmp_name path kw true w
  = (inl (RuntimeError (stderr res)),
     {| w_fs := fs_after res; w_heap := w_heap w;
        w_trace := w_trace w ++ [mkEvent argv (Some text)] |}).
Proof.
  intros Hex argv text res Hrc. rewrite AddFacts.add_pinned.
  rewrite (CompileFacts.uv_pip_compile_readable _ _ _ _ _ _ _ _ Hex).
  fold argv text res. by rewrite (proj2 (Z.eqb_neq _ _) Hrc).
Qed.

Lemma failed_pin_stops_add_witness :
  let w := Demo.world {[ ["nb.ipynb"] := NotebookFile Demo.plain_doc ]} in
  Juv.add Demo.uv_bin Demo.failing_tool Demo.has_marker Demo.toy_tmp
    ["nb.ipynb"] (Demo.no_kw ["requests"]) true w
  = (inl (RuntimeError "error: no solution"),
     {| w_fs := w_fs w; w_heap := ∅;
        w_trace := [mkEvent ["uv"; "pip"; "compile"; "--no-deps"; "-"]
                      (Some ("requests" +:+ Text.NL))] |}).
Proof.
  exact (failed_pin_stops_add Demo.uv_bin Demo.failing_tool Demo.has_marker
           Demo.toy_tmp ["nb.ipynb"] (Demo.no_kw ["requests"])
           (Demo.world {[ ["nb.ipynb"] := NotebookFile Demo.plain_doc ]})
           "" eq_refl ltac:(discriminate)).
Defined.

(** [add] on a path with the notebook extension that holds no notebook
    raises the error of the read before anything else happens: no
    temporary file is made, nothing is run and nothing is written. *)
Theorem add_on_unreadable_notebook_runs_nothing
    (find_uv_bin : string)
    (tool : list string → option string → gmap Path File → Completed)
    (includes_inline_metadata : string → bool)
    (tmp_name : gmap Path File → Path → string → string)
    (path : Path) (kw : Juv.Kw) (w : World) :
  suffix path = ".ipynb" →
  (∀ d, w_fs w !! path ≠ Some (NotebookFile d)) →
  Juv.add find_uv_bin tool includes_inline_metadata tmp_name path kw false w
  = (inl (match w_fs w !! path with
          | None => FileNotFoundError path
          | Some _ => NotJSONError path
          end), w).
Proof.
  intros Hs Hno. rewrite AddFacts.add_unpinned.
  rewrite (proj2 (String.eqb_eq _ _) Hs).
  unfold Juv.add_notebook, bind at 1. unfold Juv.jupytext_read at 1.
  rewrite (proj2 (String.eqb_eq _ _) Hs). cbn [negb].
  destruct (w_fs w !! path) as [[text|d]|] eqn:E; [done | | done].
  by destruct (Hno d).
Qed.

Lemma add_on_unreadable_notebook_runs_nothing_witness :
  Juv.add Demo.uv_bin Demo.toy_tool Demo.has_marker Demo.toy_tmp
    ["nb.ipynb"] (Demo.no_kw ["requests"]) false (Demo.world ∅)
  = (inl (FileNotFoundError ["nb.ipynb"]), Demo.world ∅).
Proof.
  assert (∀ d, w_fs (Demo.world ∅) !! ["nb.ipynb"] ≠ Some (NotebookFile d))
    as Hno by (intros d; vm_compute; discriminate).
  rewrite (add_on_unreadable_notebook_runs_nothing Demo.uv_bin Demo.toy_tool
             Demo.has_marker Demo.toy_tmp ["nb.ipynb"]
             (Demo.no_kw ["requests"]) (Demo.world ∅) eq_refl Hno).
  vm_compute. reflexivity.
Defined.

(** * Further properties of the notebook flow *)

Module FlowFacts.
Import Juv Store.

Section Oracles.
Variable find_uv_bin : string.
Variable tool : list string → option string → gmap Path File → Completed.
Variable includes_inline_metadata : string → bool.
Variable tmp_name : gmap Path File → Path → string → string.

Abbreviation is_manifest := (Juv.is_manifest includes_inline_metadata).
Abbreviation new_source :=
  (Flow.new_source find_uv_bin tool includes_inline_metadata tmp_name).
Abbreviation rewritten :=
  (Flow.rewritten find_uv_bin tool includes_inline_metadata tmp_name).
Abbreviation script_result :=
  (Flow.script_result find_uv_bin tool includes_inline_metadata tmp_name).

(** Without a manifest cell the script starts empty and the document
    written has the new cell in front. *)
Lemma rewritten_without_manifest (path : Path) (kw : Kw)
    (fs : gmap Path File) (d : Document) :
  Forall (λ c, is_manifest c = false) (doc_cells d) →
  Flow.script_text includes_inline_metadata d = ""
  ∧ rewritten path kw fs d
    = {| doc_cells := mkCell Code (new_source path kw fs d) ∅ true
                      :: doc_cells d;
         doc_metadata := doc_metadata d |}.
Proof.
  intros Hnone%StoreFacts.first_index_None.
  unfold Flow.rewritten, Flow.script_text, manifest_cell, manifest_slot.
  by rewrite Hnone.
Qed.

(** With the manifest cell in front only that cell changes. *)
Lemma rewritten_head_manifest (path : Path) (kw : Kw)
    (fs : gmap Path File) (d : Document) (c : Cell) (rest : list Cell) :
  doc_cells d = c :: rest → is_manifest c = true →
  rewritten path kw fs d
  = {| doc_cells := set_source c (new_source path kw fs d) :: rest;
       doc_metadata := doc_metadata d |}.
Proof.
  intros Hcells Hc.
  unfold Flow.rewritten, manifest_cell, manifest_slot.
  rewrite Hcells. cbn [first_index]. by rewrite Hc.
Qed.

(** A run that succeeds, in one equation. *)
Lemma add_notebook_ok (path target : Path) (kw : Kw) (w : World)
    (d : Document) :
  suffix path = ".ipynb" →
  w_fs w !! path = Some (NotebookFile d) →
  with_suffix path ".ipynb" = inr target →
  returncode (script_result path kw (w_fs w) d) = 0%Z →
  ∃ h',
    Juv.add_notebook find_uv_bin tool includes_inline_metadata tmp_name
      path kw w
    = (inr tt,
       mkWorld
         (<[target := NotebookFile (rewritten path kw (w_fs w) d)]>
            (Flow.files_left find_uv_bin tool includes_inline_metadata
               tmp_name path kw (w_fs w) d))
         h'
         (w_trace w
          ++ [mkEvent (Flow.script_argv find_uv_bin tmp_name path kw (w_fs w))
                None])).
Proof.
  intros Hs Hfile Htarget Hrc.
  destruct (AddFacts.add_notebook_flow find_uv_bin tool
              includes_inline_metadata tmp_name path kw w d Hs Hfile)
    as (h' & Hrun).
  exists h'. by rewrite Hrun, Hrc, Htarget.
Qed.

End Oracles.

End FlowFacts.

(** [add_notebook] on a notebook with the notebook extension and without
    a manifest cell hands the tool an empty script and writes back every
    cell of the notebook as it was, after one new hidden code cell that
    holds what the tool made of the script, read back and trimmed; the
    notebook's own metadata stays. *)
Theorem add_without_manifest_prepends_hidden_cell
    (find_uv_bin : string)
    (tool : list string → option string → gmap Path File → Completed)
    (includes_inline_metadata : string → bool)
    (tmp_name : gmap Path File → Path → string → string)
    (path target : Path) (kw : Juv.Kw) (w : World) (d : Document) :
  suffix path = ".ipynb" →
  w_fs w !! path = Some (NotebookFile d) →
  Forall (λ c, Juv.is_manifest includes_inline_metadata c = false)
    (doc_cells d) →
  with_suffix path ".ipynb" = inr target →
  returncode (Flow.script_result find_uv_bin tool includes_inline_metadata
                tmp_name path kw (w_fs w) d) = 0%Z →
  Flow.script_text includes_inline_metadata d = ""
  ∧ ∃ w',
      Juv.add_notebook find_uv_bin tool includes_inline_metadata tmp_name
        path kw w = (inr tt, w')
      ∧ w_fs w' !! target
        = Some (NotebookFile
                  {| doc_cells :=
                       mkCell Code
                         (Flow.new_source find_uv_bin tool
                            includes_inline_metadata tmp_name path kw
                            (w_fs w) d)
                         ∅ true
                       :: doc_cells d;
                     doc_metadata := doc_metadata d |}).
Proof.
  intros Hs Hfile Hnone Htarget Hrc.
  destruct (FlowFacts.rewritten_without_manifest find_uv_bin tool
              includes_inline_metadata tmp_name path kw (w_fs w) d Hnone)
    as [Htext Hdoc].
  split; [done |].
  destruct (FlowFacts.add_notebook_ok find_uv_bin tool
              includes_inline_metadata tmp_name path target kw w d
              Hs Hfile Htarget Hrc) as (h' & ->).
  eexists. split; [done |]. cbn [w_fs].
  by rewrite lookup_insert_eq, Hdoc.
Qed.

Lemma add_without_manifest_prepends_hidden_cell_witness :
  ∃ w' s,
    Juv.add_notebook Demo.uv_bin Demo.toy_tool Demo.has_marker Demo.toy_tmp
      ["nb.ipynb"] (Demo.no_kw ["requests"])
      (Demo.world {[ ["nb.ipynb"] := NotebookFile Demo.plain_doc ]})
    = (inr tt, w')
    ∧ w_fs w' !! ["nb.ipynb"]
      = Some (NotebookFile
                {| doc_cells := mkCell Code s ∅ true
                                :: doc_cells Demo.plain_doc;
                   doc_metadata := doc_metadata Demo.plain_doc |}).
Proof.
  assert (w_fs (Demo.world {[ ["nb.ipynb"] := NotebookFile Demo.plain_doc ]})
          !! ["nb.ipynb"] = Some (NotebookFile Demo.plain_doc)) as Hfile
    by (vm_compute; reflexivity).
  assert (Forall (λ c, Juv.is_manifest Demo.has_marker c = false)
            (doc_cells Demo.plain_doc)) as Hnone
    by (repeat constructor).
  assert (returncode
            (Flow.script_result Demo.uv_bin Demo.toy_tool Demo.has_marker
               Demo.toy_tmp ["nb.ipynb"] (Demo.no_kw ["requests"])
               (w_fs (Demo.world
                        {[ ["nb.ipynb"] := NotebookFile Demo.plain_doc ]}))
               Demo.plain_doc) = 0%Z) as Hrc
    by (vm_compute; reflexivity).
  destruct (proj2 (add_without_manifest_prepends_hidden_cell
              Demo.uv_bin Demo.toy_tool Demo.has_marker Demo.toy_tmp
              ["nb.ipynb"] ["nb.ipynb"] (Demo.no_kw ["requests"])
              (Demo.world {[ ["nb.ipynb"] := NotebookFile Demo.plain_doc ]})
              Demo.plain_doc eq_refl Hfile Hnone eq_refl Hrc))
    as (w' & Hadd & Hwritten).
  exists w'. eexists. split; [exact Hadd | exact Hwritten].
Defined.

(** Two calls of [add] in a row on a notebook that had no manifest cell:
    when the first call left a source that satisfies the predicate in the
    cell it made, the second call finds that cell, makes no other, and
    writes the same cells back with only that cell's source renewed. *)
Theorem second_add_reuses_the_manifest_cell
    (find_uv_bin : string)
    (tool : list string → option string → gmap Path File → Completed)
    (includes_inline_metadata : string → bool)
    (tmp_name : gmap Path File → Path → string → string)
    (path : Path) (kw kw' : Juv.Kw) (w : World) (d : Document) :
  suffix path = ".ipynb" →
  w_fs w !! path = Some (NotebookFile d) →
  Forall (λ c, Juv.is_manifest includes_inline_metadata c = false)
    (doc_cells d) →
  let new_source :=
    Flow.new_source find_uv_bin tool includes_inline_metadata tmp_name in
  let script_result :=
    Flow.script_result find_uv_bin tool includes_inline_metadata tmp_name in
  let add := Juv.add find_uv_bin tool includes_inline_metadata tmp_name in
  returncode (script_result path kw (w_fs w) d) = 0%Z →
  let s1 := new_source path kw (w_fs w) d in
  includes_inline_metadata s1 = true →
  let w1 := (add path kw false w).2 in
  let d1 := {| doc_cells := mkCell Code s1 ∅ true :: doc_cells d;
               doc_metadata := doc_metadata d |} in
  returncode (script_result path kw' (w_fs w1) d1) = 0%Z →
  w_fs w1 !! path = Some (NotebookFile d1)
  ∧ ∃ w2,
      add path kw' false w1 = (inr tt, w2)
      ∧ w_fs w2 !! path
        = Some (NotebookFile
                  {| doc_cells :=
                       mkCell Code (new_source path kw' (w_fs w1) d1) ∅ true
                       :: doc_cells d;
                     doc_metadata := doc_metadata d |}).
Proof.
  intros Hs Hfile Hnone new_source script_result add Hrc1 s1 Hpred w1 d1 Hrc2.
  pose proof (PathFacts.with_suffix_same _ Hs) as Htarget.
  assert (∀ k v, add path k false v
                 = Juv.add_notebook find_uv_bin tool includes_inline_metadata
                     tmp_name path k v) as Hflow.
  { intros k v. subst add. rewrite AddFacts.add_unpinned.
    by rewrite (proj2 (String.eqb_eq _ _) Hs). }
  assert (w_fs w1 !! path = Some (NotebookFile d1)) as Hfile1.
  { subst w1. rewrite Hflow.
    destruct (FlowFacts.add_notebook_ok find_uv_bin tool
                includes_inline_metadata tmp_name path path kw w d
                Hs Hfile Htarget Hrc1) as (h' & ->).
    cbn [snd w_fs]. rewrite lookup_insert_eq.
    by rewrite (proj2 (FlowFacts.rewritten_without_manifest find_uv_bin tool
                         includes_inline_metadata tmp_name path kw (w_fs w) d
                         Hnone)). }
  split; [done |]. rewrite Hflow.
  destruct (FlowFacts.add_notebook_ok find_uv_bin tool
              includes_inline_metadata tmp_name path path kw' w1 d1
              Hs Hfile1 Htarget Hrc2) as (h2 & ->).
  eexists. split; [done |]. cbn [w_fs]. rewrite lookup_insert_eq.
  rewrite (FlowFacts.rewritten_head_manifest find_uv_bin tool
             includes_inline_metadata tmp_name path kw' (w_fs w1) d1
             (mkCell Code s1 ∅ true) (doc_cells d) eq_refl); [done |].
  unfold Juv.is_manifest. cbn [cell_type source].
  by rewrite TextFacts.join_chars, Hpred.
Qed.

Lemma second_add_reuses_the_manifest_cell_witness :
  let add := Juv.add Demo.uv_bin Demo.toy_tool Demo.has_marker Demo.toy_tmp in
  let w := Demo.world {[ ["nb.ipynb"] := NotebookFile Demo.plain_doc ]} in
  let w1 := (add ["nb.ipynb"] (Demo.no_kw ["requests"]) false w).2 in
  ∃ w2 s2,
    add ["nb.ipynb"] (Demo.no_kw ["numpy"]) false w1 = (inr tt, w2)
    ∧ w_fs w2 !! ["nb.ipynb"]
      = Some (NotebookFile
                {| doc_cells := mkCell Code s2 ∅ true
                                :: doc_cells Demo.plain_doc;
                   doc_metadata := doc_metadata Demo.plain_doc |}).
Proof.
  cbv zeta.
  assert (w_fs (Demo.world {[ ["nb.ipynb"] := NotebookFile Demo.plain_doc ]})
          !! ["nb.ipynb"] = Some (NotebookFile Demo.plain_doc)) as Hfile
    by (vm_compute; reflexivity).
  assert (Forall (λ c, Juv.is_manifest Demo.has_marker c = false)
            (doc_cells Demo.plain_doc)) as Hnone
    by (repeat constructor).
  destruct (proj2 (second_add_reuses_the_manifest_cell
              Demo.uv_bin Demo.toy_tool Demo.has_marker Demo.toy_tmp
              ["nb.ipynb"] (Demo.no_kw ["requests"]) (Demo.no_kw ["numpy"])
              (Demo.world {[ ["nb.ipynb"] := NotebookFile Demo.plain_doc ]})
              Demo.plain_doc eq_refl Hfile Hnone
              ltac:(vm_compute; reflexivity)
              ltac:(vm_compute; reflexivity)
              ltac:(vm_compute; reflexivity)))
    as (w2 & Hadd & Hwritten).
  exists w2. eexists. split; [exact Hadd | exact Hwritten].
Defined.

(** When the name of the temporary script is new and the tool touches no
    file but that script, [add_notebook] on a notebook with the notebook
    extension changes exactly one file: on success the notebook at the
    target path, on a tool failure none. *)
Theorem add_notebook_changes_only_the_notebook_file
    (find_uv_bin : string)
    (tool : list string → option string → gmap Path File → Completed)
    (includes_inline_metadata : string → bool)
    (tmp_name : gmap Path File → Path → string → string)
    (path target : Path) (kw : Juv.Kw) (w : World) (d : Document) :
  suffix path = ".ipynb" →
  w_fs w !! path = Some (NotebookFile d) →
  with_suffix path ".ipynb" = inr target →
  let script := Flow.script_path tmp_name path (w_fs w) in
  let res := Flow.script_result find_uv_bin tool includes_inline_metadata
               tmp_name path kw (w_fs w) d in
  w_fs w !! script = None →
  (∀ q, q ≠ script → fs_after res !! q = w_fs w !! q) →
  w_fs (Juv.add_notebook find_uv_bin tool includes_inline_metadata tmp_name
          path kw w).2
  = if (returncode res =? 0)%Z
    then <[target := NotebookFile
             (Flow.rewritten find_uv_bin tool includes_inline_metadata
                tmp_name path kw (w_fs w) d)]> (w_fs w)
    else w_fs w.
Proof.
  intros Hs Hfile Htarget script res Hnew Honly.
  assert (Flow.files_left find_uv_bin tool includes_inline_metadata tmp_name
            path kw (w_fs w) d = w_fs w) as Hleft.
  { unfold Flow.files_left. fold script res. apply map_eq. intros q.
    destruct (decide (q = script)) as [->|Hq].
    - by rewrite lookup_delete_eq.
    - rewrite lookup_delete_ne by done. by apply Honly. }
  destruct (AddFacts.add_notebook_flow find_uv_bin tool
              includes_inline_metadata tmp_name path kw w d Hs Hfile)
    as (h' & ->).
  fold res. rewrite Htarget, Hleft. by destruct (returncode res =? 0)%Z.
Qed.

Lemma add_notebook_changes_only_the_notebook_file_witness :
  let fs : gmap Path File :=
    {[ ["nb.ipynb"] := NotebookFile Demo.plain_doc;
       ["notes.txt"] := TextFile "keep" ]} in
  w_fs (Juv.add_notebook Demo.uv_bin Demo.toy_tool Demo.has_marker
          Demo.toy_tmp ["nb.ipynb"] (Demo.no_kw ["requests"])
          (Demo.world fs)).2 !! ["notes.txt"]
  = Some (TextFile "keep").
Proof.
  cbv zeta.
  set (fs := ({[ ["nb.ipynb"] := NotebookFile Demo.plain_doc;
                 ["notes.txt"] := TextFile "keep" ]} : gmap Path File)).
  assert (w_fs (Demo.world fs) !! ["nb.ipynb"]
          = Some (NotebookFile Demo.plain_doc)) as Hfile
    by (vm_compute; reflexivity).
  assert (w_fs (Demo.world fs)
          !! Flow.script_path Demo.toy_tmp ["nb.ipynb"] (w_fs (Demo.world fs))
          = None) as Hnew
    by (vm_compute; reflexivity).
  assert (∀ q,
            q ≠ Flow.script_path Demo.toy_tmp ["nb.ipynb"]
                  (w_fs (Demo.world fs)) →
            fs_after (Flow.script_result Demo.uv_bin Demo.toy_tool
                        Demo.has_marker Demo.toy_tmp ["nb.ipynb"]
                        (Demo.no_kw ["requests"]) (w_fs (Demo.world fs))
                        Demo.plain_doc) !! q
            = w_fs (Demo.world fs) !! q) as Honly.
  { intros q Hq.
    change (fs_after _)
      with (<[ ["tmpjuv.py"] :=
                 TextFile (Demo.block ["requests"] +:+ "") ]>
              (<[ ["tmpjuv.py"] := TextFile "" ]> fs)).
    change (w_fs (Demo.world fs)) with fs.
    rewrite lookup_insert_ne by (intros Heq; by apply Hq).
    rewrite lookup_insert_ne by (intros Heq; by apply Hq).
    done. }
  rewrite (add_notebook_changes_only_the_notebook_file Demo.uv_bin
             Demo.toy_tool Demo.has_marker Demo.toy_tmp ["nb.ipynb"]
             ["nb.ipynb"] (Demo.no_kw ["requests"]) (Demo.world fs)
             Demo.plain_doc eq_refl Hfile eq_refl Hnew Honly).
  vm_compute. reflexivity.
Defined.

(** * Further properties of [init] *)

Module InitMore.
Import Juv.

Lemma list_find_first {A} (f : A → bool) (l : list A) (x : A) :
  List.find f l = Some x →
  ∃ i, l !! i = Some x
       ∧ f x = true
       ∧ ∀ j y, j < i → l !! j = Some y → f y = false.
Proof.
  induction l as [|a l IH]; cbn [List.find]; [done |].
  destruct (f a) eqn:Ha.
  - intros [= ->]. exists 0. repeat split; [done |]. intros j y Hj. lia.
  - intros Hx. destruct (IH Hx) as (i & Hi & Hfx & Hmin).
    exists (S i). repeat split; [done | done |].
    intros [|j] y Hj Hy; cbn in Hy; [congruence |].
    apply (Hmin j); [lia | done].
Qed.

Lemma untitled_names_NoDup : NoDup Spec.untitled_names.
Proof.
  apply (bool_decide_unpack (NoDup Spec.untitled_names)).
  vm_compute. exact I.
Qed.

Section Oracles.
Variable find_uv_bin : string.
Variable tool : list string → option string → gmap Path File → Completed.
Variable includes_inline_metadata : string → bool.
Variable tmp_name : gmap Path File → Path → string → string.
Variable cwd : Path.

Abbreviation init :=
  (Juv.init find_uv_bin tool includes_inline_metadata tmp_name cwd).
Abbreviation init_at :=
  (Calls.init_at find_uv_bin tool includes_inline_metadata tmp_name).

(** [init] settles the path, checks its extension, and goes on. *)
Lemma init_choice (path : option Path) (python : option string)
    (pkgs : list string) (w : World) :
  init path python pkgs w
  = match Calls.chosen_path cwd path (w_fs w) with
    | None =>
        (inl (ValueError "Could not find an available UntitledX.ipynb"), w)
    | Some p =>
        if String.eqb (suffix p) ".ipynb"
        then init_at p python pkgs w
        else (inl (SystemExit 1), w)
    end.
Proof.
  unfold Juv.init, Calls.chosen_path, bind at 1.
  destruct path as [p|].
  - unfold ret at 1. by destruct (String.eqb (suffix p) ".ipynb").
  - rewrite InitFacts.get_first_spec.
    destruct (Spec.first_free (w_fs w) cwd Spec.untitled_names) as [n|];
      [| done].
    cbn [fmap option_fmap option_map].
    by destruct (String.eqb (suffix (joinpath cwd n)) ".ipynb").
Qed.

(** The tool fails: nothing is allocated, nothing is written. *)
Lemma init_at_failure (p : Path) (python : option string)
    (pkgs : list string) (w : World) :
  let res := Flow.init_result find_uv_bin tool tmp_name (parent p) python
               (w_fs w) in
  let argv := Flow.init_argv find_uv_bin tmp_name (parent p) python (w_fs w) in
  returncode res ≠ 0%Z →
  init_at p python pkgs w
  = (inl (CalledProcessError (returncode res) argv),
     {| w_fs := delete (Flow.init_script tmp_name (parent p) (w_fs w))
                  (fs_after res);
        w_heap := w_heap w;
        w_trace := w_trace w ++ [mkEvent argv None] |}).
Proof.
  intros res argv Hrc. subst res argv.
  unfold Flow.init_result, Flow.init_argv, Flow.init_script in *.
  unfold Calls.init_at, bind at 1.
  unfold new_notebook_with_inline_metadata, with_tempfile.
  unfold bind at 1. unfold uv at 1. unfold bind at 1.
  unfold subprocess_run at 1. cbn [w_fs with_fs w_heap w_trace].
  by rewrite (proj2 (Z.eqb_neq _ _) Hrc).
Qed.

(** The tool succeeds and no package is asked for. *)
Lemma init_at_run (p : Path) (python : option string) (w : World) :
  returncode (Flow.init_result find_uv_bin tool tmp_name (parent p) python
                (w_fs w)) = 0%Z →
  ∃ h',
    init_at p python [] w
    = (inr p,
       {| w_fs :=
            <[p := NotebookFile
                     (Flow.init_document find_uv_bin tool tmp_name (parent p)
                        python (w_fs w))]>
              (delete (Flow.init_script tmp_name (parent p) (w_fs w))
                 (fs_after (Flow.init_result find_uv_bin tool tmp_name
                              (parent p) python (w_fs w))));
          w_heap := h';
          w_trace :=
            w_trace w
            ++ [mkEvent (Flow.init_argv find_uv_bin tmp_name (parent p)
                           python (w_fs w)) None] |}).
Proof.
  intros Hrc.
  destruct (InitFacts.new_notebook_run find_uv_bin tool
              includes_inline_metadata tmp_name (parent p) python w Hrc)
    as (c1 & c2 & h' & Hnew & Hcells).
  exists h'. unfold Calls.init_at, bind at 1. rewrite Hnew.
  unfold bind, write_ipynb, ret. cbn [length Nat.ltb Nat.leb].
  unfold with_fs.
  cbn [w_fs w_heap w_trace new_notebook nb_cells nb_metadata].
  by rewrite Hcells.
Qed.

(** With packages, [init] is [init] without packages and then [add]. *)
Lemma init_at_compose (p : Path) (python : option string)
    (pkgs : list string) (w : World) :
  pkgs ≠ [] →
  init_at p python pkgs w
  = match init_at p python [] w with
    | (inr _, w1) =>
        match Juv.add find_uv_bin tool includes_inline_metadata tmp_name p
                (Calls.add_defaults pkgs) false w1 with
        | (inr _, w2) => (inr p, w2)
        | (inl e, w2) => (inl e, w2)
        end
    | (inl e, w1) => (inl e, w1)
    end.
Proof.
  intros Hpkgs. unfold Calls.init_at, bind.
  destruct (new_notebook_with_inline_metadata _ _ _ _ _ _)
    as [[e|nb] w1]; [done |].
  unfold write_ipynb, ret. destruct pkgs as [|pkg pkgs]; [done |].
  cbn [length Nat.ltb Nat.leb].
  by destruct (Juv.add _ _ _ _ _ _ _ _) as [[e|[]] w2].
Qed.

End Oracles.

End InitMore.

(** The path [get_first_non_conflicting_untitled_ipynb] returns is free,
    lies in the directory asked about, has the notebook extension, and is
    the first free one of the hundred pairwise different names: every
    name before it is taken.  The function changes nothing. *)
Theorem untitled_path_is_free_and_first
    (directory : Path) (w w' : World) (p : Path) :
  Juv.get_first_non_conflicting_untitled_ipynb directory w = (inr p, w') →
  w' = w
  ∧ w_fs w !! p = None
  ∧ parent p = directory
  ∧ suffix p = ".ipynb"
  ∧ NoDup Spec.untitled_names
  ∧ ∃ i, i < 100
         ∧ Spec.untitled_names !! i = Some (name p)
         ∧ ∀ j n, j < i → Spec.untitled_names !! j = Some n →
             is_Some (w_fs w !! joinpath directory n).
Proof.
  rewrite InitFacts.get_first_spec.
  destruct (Spec.first_free (w_fs w) directory Spec.untitled_names)
    as [n|] eqn:Hfree; [| done].
  intros [= <- <-]. unfold Spec.first_free in Hfree.
  destruct (InitMore.list_find_first _ _ _ Hfree) as (i & Hi & Hn & Hmin).
  split; [done |]. split; [by apply bool_decide_eq_true_1 in Hn |].
  split; [apply PathFacts.parent_joinpath |].
  split; [apply InitFacts.untitled_names_suffix;
          by eapply list_elem_of_lookup_2 |].
  split; [apply InitMore.untitled_names_NoDup |].
  exists i. rewrite PathFacts.name_joinpath. split; [| split; [done |]].
  - apply lookup_lt_Some in Hi. by rewrite InitFacts.untitled_names_length in Hi.
  - intros j m Hj Hm. specialize (Hmin j m Hj Hm).
    apply bool_decide_eq_false_1 in Hmin.
    by destruct (w_fs w !! joinpath directory m).
Qed.

Lemma untitled_path_is_free_and_first_witness :
  let w := Demo.world {[ ["home"; "Untitled.ipynb"] := TextFile "taken";
                         ["home"; "Untitled1.ipynb"] := TextFile "taken" ]} in
  w_fs w !! ["home"; "Untitled2.ipynb"] = None
  ∧ suffix ["home"; "Untitled2.ipynb"] = ".ipynb".
Proof.
  cbv zeta.
  set (w := Demo.world {[ ["home"; "Untitled.ipynb"] := TextFile "taken";
                          ["home"; "Untitled1.ipynb"] := TextFile "taken" ]}).
  assert (Juv.get_first_non_conflicting_untitled_ipynb ["home"] w
          = (inr ["home"; "Untitled2.ipynb"], w)) as Hrun
    by (vm_compute; reflexivity).
  destruct (untitled_path_is_free_and_first ["home"] w w
              ["home"; "Untitled2.ipynb"] Hrun)
    as (_ & Hfree & _ & Hsuffix & _).
  split; [exact Hfree | exact Hsuffix].
Defined.

(** When the tool fails to initialise the script, [init] raises
    [CalledProcessError] and writes no notebook, whatever the path and
    the packages asked for: the files are as the tool left them, less the
    temporary script, and [add] is never reached. *)
Theorem init_tool_failure_writes_no_notebook
    (find_uv_bin : string)
    (tool : list string → option string → gmap Path File → Completed)
    (includes_inline_metadata : string → bool)
    (tmp_name : gmap Path File → Path → string → string)
    (cwd : Path) (path : option Path) (python : option string)
    (pkgs : list string) (w : World) (p : Path) :
  Calls.chosen_path cwd path (w_fs w) = Some p →
  suffix p = ".ipynb" →
  let res := Flow.init_result find_uv_bin tool tmp_name (parent p) python
               (w_fs w) in
  let argv := Flow.init_argv find_uv_bin tmp_name (parent p) python (w_fs w) in
  returncode res ≠ 0%Z →
  Juv.init find_uv_bin tool includes_inline_metadata tmp_name cwd path python
    pkgs w
  = (inl (CalledProcessError (returncode res) argv),
     {| w_fs := delete (Flow.init_script tmp_name (parent p) (w_fs w))
                  (fs_after res);
        w_heap := w_heap w;
        w_trace := w_trace w ++ [mkEvent argv None] |}).
Proof.
  intros Hchosen Hs res argv Hrc.
  rewrite InitMore.init_choice, Hchosen, (proj2 (String.eqb_eq _ _) Hs).
  by apply InitMore.init_at_failure.
Qed.

Lemma init_tool_failure_writes_no_notebook_witness :
  Juv.init Demo.uv_bin Demo.failing_tool Demo.has_marker Demo.toy_tmp
    ["home"] (Some ["home"; "nb.ipynb"]) None ["requests"] (Demo.world ∅)
  = (inl (CalledProcessError 1 ["uv"; "init"; "--script"; "home/tmpjuv.py"]),
     {| w_fs := ∅; w_heap := ∅;
        w_trace := [mkEvent ["uv"; "init"; "--script"; "home/tmpjuv.py"]
                      None] |}).
Proof.
  rewrite (init_tool_failure_writes_no_notebook Demo.uv_bin Demo.failing_tool
             Demo.has_marker Demo.toy_tmp ["home"] (Some ["home"; "nb.ipynb"])
             None ["requests"] (Demo.world ∅) ["home"; "nb.ipynb"]
             eq_refl eq_refl ltac:(discriminate)).
  vm_compute. reflexivity.
Defined.

(** [init] with a supplied path that has the notebook extension, no
    packages and a tool that succeeds writes the two-cell notebook at that
    very path, whatever was there before, with the temporary script made
    in the path's own directory, and returns the path. *)
Theorem init_writes_at_supplied_path
    (find_uv_bin : string)
    (tool : list string → option string → gmap Path File → Completed)
    (includes_inline_metadata : string → bool)
    (tmp_name : gmap Path File → Path → string → string)
    (cwd p : Path) (python : option string) (w : World) :
  suffix p = ".ipynb" →
  let res := Flow.init_result find_uv_bin tool tmp_name (parent p) python
               (w_fs w) in
  returncode res = 0%Z →
  ∃ w',
    Juv.init find_uv_bin tool includes_inline_metadata tmp_name cwd (Some p)
      python [] w = (inr p, w')
    ∧ w_fs w'
      = <[p := NotebookFile
                 (Flow.init_document find_uv_bin tool tmp_name (parent p)
                    python (w_fs w))]>
          (delete (Flow.init_script tmp_name (parent p) (w_fs w))
             (fs_after res))
    ∧ w_trace w'
      = w_trace w
        ++ [mkEvent (Flow.init_argv find_uv_bin tmp_name (parent p) python
                       (w_fs w)) None].
Proof.
  intros Hs res Hrc.
  rewrite InitMore.init_choice. cbn [Calls.chosen_path].
  rewrite (proj2 (String.eqb_eq _ _) Hs).
  destruct (InitMore.init_at_run find_uv_bin tool includes_inline_metadata
              tmp_name p python w Hrc) as (h' & ->).
  by eexists.
Qed.

Lemma init_writes_at_supplied_path_witness :
  ∃ w',
    Juv.init Demo.uv_bin Demo.toy_tool Demo.has_marker Demo.toy_tmp ["home"]
      (Some ["work"; "nb.ipynb"]) None []
      (Demo.world {[ ["work"; "nb.ipynb"] := TextFile "old" ]})
    = (inr ["work"; "nb.ipynb"], w')
    ∧ w_trace w'
      = [mkEvent ["uv"; "init"; "--script"; "work/tmpjuv.py"] None].
Proof.
  set (w := Demo.world {[ ["work"; "nb.ipynb"] := TextFile "old" ]}).
  assert (returncode (Flow.init_result Demo.uv_bin Demo.toy_tool Demo.toy_tmp
                        (parent ["work"; "nb.ipynb"]) None (w_fs w)) = 0%Z)
    as Hrc by (vm_compute; reflexivity).
  destruct (init_writes_at_supplied_path Demo.uv_bin Demo.toy_tool
              Demo.has_marker Demo.toy_tmp ["home"] ["work"; "nb.ipynb"] None
              w eq_refl Hrc)
    as (w' & Hinit & _ & Htrace).
  exists w'. split; [exact Hinit |]. rewrite Htrace. vm_compute. reflexivity.
Defined.

(** [init] with packages is [init] without packages followed by the
    notebook flow of [add] on the path just written, with every other
    parameter at its default and no pin step; an error of that second step
    is the error of [init], with the notebook of the first step already on
    disk.  A path [init] returns has the notebook extension, and on full
    success the tool has been run exactly twice: to initialise the script,
    then to add to it. *)
Theorem init_with_packages_is_init_then_add
    (find_uv_bin : string)
    (tool : list string → option string → gmap Path File → Completed)
    (includes_inline_metadata : string → bool)
    (tmp_name : gmap Path File → Path → string → string)
    (cwd : Path) (path : option Path) (python : option string)
    (pkgs : list string) (w : World) :
  pkgs ≠ [] →
  let init :=
    Juv.init find_uv_bin tool includes_inline_metadata tmp_name cwd path
      python in
  let add_notebook :=
    Juv.add_notebook find_uv_bin tool includes_inline_metadata tmp_name in
  init pkgs w
  = match init [] w with
    | (inr p, w1) =>
        match add_notebook p (Calls.add_defaults pkgs) w1 with
        | (inr _, w2) => (inr p, w2)
        | (inl e, w2) => (inl e, w2)
        end
    | (inl e, w1) => (inl e, w1)
    end
  ∧ (∀ p w1, init [] w = (inr p, w1) →
       suffix p = ".ipynb"
       ∧ Calls.chosen_path cwd path (w_fs w) = Some p
       ∧ w_fs w1 !! p
         = Some (NotebookFile
                   (Flow.init_document find_uv_bin tool tmp_name (parent p)
                      python (w_fs w)))
       ∧ ∀ w2, add_notebook p (Calls.add_defaults pkgs) w1 = (inr tt, w2) →
           w_trace w2
           = w_trace w
             ++ [mkEvent (Flow.init_argv find_uv_bin tmp_name (parent p)
                            python (w_fs w)) None;
                 mkEvent (Flow.script_argv find_uv_bin tmp_name p
                            (Calls.add_defaults pkgs) (w_fs w1)) None]).
Proof.
  intros Hpkgs init add_notebook. subst init. split.
  - rewrite !InitMore.init_choice.
    destruct (Calls.chosen_path cwd path (w_fs w)) as [p|]; [| done].
    destruct (String.eqb (suffix p) ".ipynb") eqn:Hs; [| done].
    rewrite InitMore.init_at_compose by done.
    destruct (Calls.init_at _ _ _ _ p python [] w) as [[e|q] w1] eqn:Hrun;
      [done |].
    assert (q = p) as ->.
    { unfold Calls.init_at in Hrun.
      apply InitFacts.bind_inr in Hrun as (? & ? & _ & Hrun).
      apply InitFacts.bind_inr in Hrun as (? & ? & _ & Hrun).
      apply InitFacts.bind_inr in Hrun as (? & ? & _ & Hrun).
      by injection Hrun as <- _. }
    by rewrite AddFacts.add_unpinned, Hs.
  - intros p w1. rewrite InitMore.init_choice.
    destruct (Calls.chosen_path cwd path (w_fs w)) as [q|]; [| done].
    destruct (String.eqb (suffix q) ".ipynb") eqn:Hs; [| done].
    destruct (Z.eq_dec
                (returncode (Flow.init_result find_uv_bin tool tmp_name
                               (parent q) python (w_fs w))) 0%Z) as [Hrc|Hrc].
    + destruct (InitMore.init_at_run find_uv_bin tool
                  includes_inline_metadata tmp_name q python w Hrc)
        as (h' & ->).
      intros [= <- <-]. split; [by apply String.eqb_eq |]. split; [done |].
      cbn [w_fs w_trace]. split; [by rewrite lookup_insert_eq |].
      intros w2 Hadd.
      set (w1 := mkWorld _ h' _) in *.
      assert (w_fs w1 !! q
              = Some (NotebookFile
                        (Flow.init_document find_uv_bin tool tmp_name
                           (parent q) python (w_fs w)))) as Hfile
        by (subst w1; cbn [w_fs]; by rewrite lookup_insert_eq).
      destruct (AddFacts.add_notebook_flow find_uv_bin tool
                  includes_inline_metadata tmp_name q
                  (Calls.add_defaults pkgs) w1 _
                  (proj1 (String.eqb_eq _ _) Hs) Hfile) as (h2 & Hflow).
      subst add_notebook. rewrite Hflow in Hadd.
      destruct (returncode _ =? 0)%Z; [| done].
      destruct (with_suffix q ".ipynb"); [done |].
      injection Hadd as <-. subst w1. cbn [w_trace w_fs].
      by rewrite <- app_assoc.
    + by rewrite (InitMore.init_at_failure find_uv_bin tool
                    includes_inline_metadata tmp_name q python [] w Hrc).
Qed.

Lemma init_with_packages_is_init_then_add_witness :
  w_trace (Juv.init Demo.uv_bin Demo.toy_tool Demo.has_marker Demo.toy_tmp
             ["home"] None None ["numpy"] (Demo.world ∅)).2
  = [mkEvent ["uv"; "init"; "--script"; "home/tmpjuv.py"] None;
     mkEvent ["uv"; "add"; "--script"; "home/tmpjuv.py"; "numpy"] None].
Proof.
  rewrite (proj1 (init_with_packages_is_init_then_add Demo.uv_bin
                    Demo.toy_tool Demo.has_marker Demo.toy_tmp ["home"] None
                    None ["numpy"] (Demo.world ∅) ltac:(discriminate))).
  vm_compute. reflexivity.
Defined.

(** * Further properties: the lines of the combined requirements text *)

Module LineFacts.
Import Juv.

Lemma ended_spec (t : string) :
  Lines.ended t = true ↔ t = "" ∨ ∃ body, t = body +:+ Text.NL.
Proof.
  split.
  - induction t as [|c rest IH]; [by left |]. intros H. right.
    destruct rest as [|c' rest'].
    + cbn in H. apply Ascii.eqb_eq in H as ->. by exists "".
    + destruct (IH H) as [Hrest|[body Hbody]]; [done |].
      exists (String c body). cbn [String.append]. by rewrite <- Hbody.
  - intros [->|[body ->]]; [done |].
    induction body as [|c body IH]; [done |].
    cbn [String.append Lines.ended].
    destruct (body +:+ Text.NL) eqn:E; [by destruct body | done].
Qed.

Lemma ended_append (acc p : string) :
  Lines.ended (acc +:+ p +:+ Text.NL) = true.
Proof.
  apply ended_spec. right. exists (acc +:+ p).
  by rewrite TextFacts.app_assoc.
Qed.

(** An ended text splits into its lines and one empty piece, which is
    where a text appended to it begins. *)
Lemma split_after_ended (acc : string) :
  Lines.ended acc = true →
  ∃ front, Text.split_nl acc = front ++ [""]
           ∧ ∀ x, Text.split_nl (acc +:+ x) = front ++ Text.split_nl x.
Proof.
  intros [->|[body ->]]%ended_spec.
  - by exists [].
  - exists (Text.split_nl body). unfold Text.split_nl, Text.NL. split.
    + by rewrite TextFacts.split_on_app_sep.
    + intros x. rewrite TextFacts.app_assoc. cbn [String.append].
      by rewrite TextFacts.split_on_app_sep.
Qed.

Lemma split_one_line (p : string) :
  Lines.one_line p = true → Text.split_nl (p +:+ Text.NL) = [p; ""].
Proof.
  unfold Lines.one_line. intros Hp%negb_true_iff.
  unfold Text.split_nl, Text.NL.
  rewrite TextFacts.split_on_app_sep.
  by rewrite (TextFacts.split_on_whole _ _ Hp).
Qed.

(** One step of the loop on an ended text: the lines stay and the
    package is a line. *)
Lemma append_line (acc p : string) :
  Lines.ended acc = true → Lines.one_line p = true →
  p ∈ Text.split_nl (acc +:+ p +:+ Text.NL)
  ∧ ∀ l, l ∈ Text.split_nl acc → l ∈ Text.split_nl (acc +:+ p +:+ Text.NL).
Proof.
  intros (front & Hacc & Happ)%split_after_ended Hp.
  rewrite Happ, Hacc, (split_one_line _ Hp). split.
  - apply elem_of_app. right. by left.
  - intros l [Hl|Hl]%elem_of_app; apply elem_of_app; [by left |].
    right. apply elem_of_cons in Hl as [->|Hl]; [| by apply elem_of_nil in Hl].
    right. by left.
Qed.

Lemma append_packages_keeps_lines (acc : string) (pkgs : list string) :
  Lines.ended acc = true →
  Forall (λ p, Lines.one_line p = true) pkgs →
  Lines.ended (append_packages acc pkgs) = true
  ∧ ∀ l, l ∈ Text.split_nl acc → l ∈ Text.split_nl (append_packages acc pkgs).
Proof.
  intros Hacc Hpkgs. revert acc Hacc.
  induction Hpkgs as [|p pkgs Hp _ IH]; intros acc Hacc; [done |].
  cbn [append_packages]. destruct (Text.occurs p acc); cbn [negb].
  - by apply IH.
  - destruct (IH _ (ended_append acc p)) as [Hended Hkept].
    split; [done |]. intros l Hl. apply Hkept.
    by apply (proj2 (append_line acc p Hacc Hp)).
Qed.

Lemma appended_own_line (existing : string) (pkgs : list string) :
  Lines.ended existing = true →
  Forall (λ p, Lines.one_line p = true) pkgs →
  Stated.appended_as_own_line existing pkgs.
Proof.
  intros Hended Hpkgs before p after -> Hocc.
  apply Forall_app in Hpkgs as [Hbefore Hrest].
  apply Forall_cons in Hrest as [Hp Hafter].
  destruct (append_packages_keeps_lines existing before Hended Hbefore)
    as [Hacc _].
  rewrite CompileFacts.append_packages_app. cbn [append_packages].
  rewrite Hocc. cbn [negb].
  apply (append_packages_keeps_lines _ after (ended_append _ p) Hafter).
  exact (proj1 (append_line _ p Hacc Hp)).
Qed.

End LineFacts.

(** When the requirements text is empty or ends with a newline and no
    requested package holds a newline, the text [uv_pip_compile] feeds the
    tool is made of whole lines: every line of the requirements text is a
    line of it, every package the loop appends is a line of it, and it
    ends with a newline or is empty.  Without a requirements file the
    first condition holds. *)
Theorem appended_packages_are_lines
    (find_uv_bin : string)
    (tool : list string → option string → gmap Path File → Completed)
    (pkgs : list string) (reqs : option string) (nd : bool)
    (excl : option string) (w : World) (existing : string) :
  Spec.existing_text reqs (w_fs w) = Some existing →
  Lines.ended existing = true →
  Forall (λ p, Lines.one_line p = true) pkgs →
  let out := Juv.uv_pip_compile find_uv_bin tool pkgs reqs nd excl w in
  let text := Juv.append_packages existing pkgs in
  w_trace out.2
  = w_trace w ++ [mkEvent (Juv.pip_compile_argv find_uv_bin nd excl) (Some text)]
  ∧ Stated.appended_as_own_line existing pkgs
  ∧ (∀ l, l ∈ Text.split_nl existing → l ∈ Text.split_nl text)
  ∧ Lines.ended text = true
  ∧ (Lines.ended text = true ↔ text = "" ∨ ∃ body, text = body +:+ Text.NL)
  ∧ (reqs = None → Lines.ended existing = true).
Proof.
  intros Hex Hended Hpkgs out text. subst out.
  rewrite (CompileFacts.uv_pip_compile_readable _ _ _ _ _ _ _ _ Hex).
  destruct (LineFacts.append_packages_keeps_lines existing pkgs Hended Hpkgs)
    as [Htext Hkept].
  split; [done |]. split; [by apply LineFacts.appended_own_line |].
  split; [done |]. split; [done |]. split; [apply LineFacts.ended_spec |].
  done.
Qed.

Lemma appended_packages_are_lines_witness :
  let text := Juv.append_packages ("numpy-financial" +:+ Text.NL) ["pandas"] in
  text = "numpy-financial" +:+ Text.NL +:+ "pandas" +:+ Text.NL
  ∧ "pandas" ∈ Text.split_nl text
  ∧ "numpy-financial" ∈ Text.split_nl text.
Proof.
  cbv zeta.
  set (w := Demo.world
              {[ ["requirements.txt"]
                 := TextFile ("numpy-financial" +:+ Text.NL) ]}).
  assert (Spec.existing_text (Some "requirements.txt") (w_fs w)
          = Some ("numpy-financial" +:+ Text.NL)) as Hex
    by (vm_compute; reflexivity).
  assert (Forall (λ p, Lines.one_line p = true) ["pandas"]) as Hpkgs
    by (repeat constructor).
  destruct (appended_packages_are_lines Demo.uv_bin Demo.toy_tool ["pandas"]
              (Some "requirements.txt") true None w
              ("numpy-financial" +:+ Text.NL) Hex eq_refl Hpkgs)
    as (_ & Hown & Hkept & _).
  split; [reflexivity |]. split.
  - exact (Hown [] "pandas" [] eq_refl eq_refl).
  - apply Hkept. vm_compute. by left.
Defined.
